(** * DICHOSOCEAN Intelligence Panel: data preparation and statistics pipeline

    A shallow embedding of the computational core of [app.py]: the loader
    with its three outlier rules, the date-range selector, the IQR outlier
    summary, the correlation / p-value matrices, the best-fit pair selection
    and the 2024-vs-2025 comparison.

    Numbers are Python floats, i.e. IEEE-754 binary64: they are modelled by
    Rocq's primitive [float], whose operations are specified against
    [SpecFloat].  A missing reading is NaN, as in a pandas float column. *)

From Stdlib Require Import ZArith List Bool Ascii String Lia Floats Permutation Sorted.
Import ListNotations.

Set Warnings "-inexact-float".

(** ** Python operators on floats *)

Module Py.
Local Open Scope float_scope.

(** [a > b], [a < b], [a != b] as Python evaluates them on floats: every
    ordered comparison with NaN is False, and [NaN != x] is True. *)
Definition gt (a b : float) : bool := b <? a.
Definition lt (a b : float) : bool := a <? b.
Definition ge (a b : float) : bool := b <=? a.
Definition le (a b : float) : bool := a <=? b.
Definition ne (a b : float) : bool := negb (a =? b).

(** [numpy.isnan] / [pandas.isna] on a float cell. *)
Definition isnan (a : float) : bool := is_nan a.

(** Integer-to-float conversion performed by true division of counts. *)
Definition float_of_nat (n : nat) : float := of_uint63 (Uint63.of_Z (Z.of_nat n)).

(** [range(a, b)]. *)
Definition range (a b : nat) : list nat := seq a (b - a).

(** [str.replace(a, b)] for one-character [a] and [b]. *)
Fixpoint replace (a b : ascii) (s : string) : string :=
  match s with
  | EmptyString => EmptyString
  | String c s' => String (if Ascii.eqb c a then b else c) (replace a b s')
  end.

Definition is_lower (c : ascii) : bool :=
  (97 <=? nat_of_ascii c)%nat && (nat_of_ascii c <=? 122)%nat.
Definition is_upper (c : ascii) : bool :=
  (65 <=? nat_of_ascii c)%nat && (nat_of_ascii c <=? 90)%nat.
Definition upper (c : ascii) : ascii :=
  if is_lower c then ascii_of_nat (nat_of_ascii c - 32) else c.
Definition lower (c : ascii) : ascii :=
  if is_upper c then ascii_of_nat (nat_of_ascii c + 32) else c.

(** [str.title()] on ASCII text: a letter that follows a non-letter is
    upper-cased, every other letter is lower-cased. *)
Fixpoint title_from (prev_letter : bool) (s : string) : string :=
  match s with
  | EmptyString => EmptyString
  | String c s' =>
      if is_lower c || is_upper c
      then String (if prev_letter then lower c else upper c) (title_from true s')
      else String c (title_from false s')
  end.
Definition title (s : string) : string := title_from false s.

End Py.

(** ** Binary64 constants

    The integer significands of the two thresholds of the best-fit selection
    (both have exponent -53), and the result of rounding a positive
    significand-exponent pair. *)

Module B64.
Local Open Scope Z_scope.



End B64.

(** ** Exceptions

    Library calls that may raise return [exc]; [try_except] is a
    [try: ... except: ...] block with a bare [except]. *)

Inductive exc (A : Type) : Type :=
| Ok (a : A)
| Raise (err : string).
Arguments Ok {A} a.
Arguments Raise {A} err.

Definition ret {A} (a : A) : exc A := Ok a.

Definition bind {A B} (m : exc A) (k : A -> exc B) : exc B :=
  match m with
  | Ok a => k a
  | Raise err => Raise err
  end.

Definition try_except {A} (body handler : exc A) : exc A :=
  match body with
  | Ok a => Ok a
  | Raise _ => handler
  end.

Notation "x <- m ;; k" := (bind m (fun x => k))
  (at level 61, m at next level, right associativity).
Notation "' pat <- m ;; k" := (bind m (fun x => match x with pat => k end))
  (at level 61, pat pattern, m at next level, right associativity).

(** A [for] loop that appends one result per element. *)
Fixpoint for_each {A B} (f : A -> exc B) (l : list A) : exc (list B) :=
  match l with
  | [] => ret []
  | a :: l' => b <- f a ;; bs <- for_each f l' ;; ret (b :: bs)
  end.

(** ** Data model *)

(** The nine sensor columns, under their canonical names. *)
Inductive column : Type :=
| temperature | pressure | salinity | chlorophyll_a | turbidity
| ph | dissolved_oxygen | pco2 | ta.

Definition column_name (c : column) : string :=
  match c with
  | temperature => "temperature"
  | pressure => "pressure"
  | salinity => "salinity"
  | chlorophyll_a => "chlorophyll_a"
  | turbidity => "turbidity"
  | ph => "ph"
  | dissolved_oxygen => "dissolved_oxygen"
  | pco2 => "pco2"
  | ta => "ta"
  end.

Definition column_eqb (a b : column) : bool :=
  match a, b with
  | temperature, temperature | pressure, pressure | salinity, salinity
  | chlorophyll_a, chlorophyll_a | turbidity, turbidity | ph, ph
  | dissolved_oxygen, dissolved_oxygen | pco2, pco2 | ta, ta => true
  | _, _ => false
  end.

(** A calendar date, ordered as [datetime.date] is: by year, month, day. *)
Record date : Type := mk_date { d_year : Z; d_month : Z; d_day : Z }.

(** A parsed [datetime] cell: its calendar date and the time of day
    (nanoseconds after midnight). *)
Record Timestamp : Type := mk_ts { ts_date : date; ts_time : Z }.

Definition date_leb (a b : date) : bool :=
  ((d_year a <? d_year b) ||
   ((d_year a =? d_year b) &&
    ((d_month a <? d_month b) ||
     ((d_month a =? d_month b) && (d_day a <=? d_day b)))))%Z.

Definition date_eqb (a b : date) : bool :=
  ((d_year a =? d_year b) && (d_month a =? d_month b) && (d_day a =? d_day b))%Z.

Definition ts_leb (a b : Timestamp) : bool :=
  if date_eqb (ts_date a) (ts_date b) then (ts_time a <=? ts_time b)%Z
  else date_leb (ts_date a) (ts_date b).

(** One measurement record: the timestamp and the nine nullable readings. *)
Record row : Type := mk_row { datetime : Timestamp; cell : column -> float }.

(** A DataFrame: rows in load order. *)
Definition DataFrame : Type := list row.

(** [df[c]]: one column as a Series. *)
Definition col (df : DataFrame) (c : column) : list float :=
  map (fun r => cell r c) df.

(** [Series.dropna()]. *)
Definition dropna (s : list float) : list float :=
  filter (fun v => negb (Py.isnan v)) s.

(** [df[[a, b]].dropna()]: the rows where both readings are present. *)
Definition dropna2 (df : DataFrame) (a b : column) : list (float * float) :=
  filter (fun xy => negb (Py.isnan (fst xy)) && negb (Py.isnan (snd xy)))
         (map (fun r => (cell r a, cell r b)) df).

Definition set_cell (c : column) (v : float) (r : row) : row :=
  {| datetime := datetime r;
     cell := fun c' => if column_eqb c c' then v else cell r c' |}.

(** [df.loc[mask, c] = v]. *)
Definition loc_assign (mask : row -> bool) (c : column) (v : float)
    (df : DataFrame) : DataFrame :=
  map (fun r => if mask r then set_cell c v r else r) df.

(** [Series.min()] / [Series.max()] of the timestamp column; [None] is NaT. *)
Fixpoint ts_min (l : list Timestamp) : option Timestamp :=
  match l with
  | [] => None
  | t :: l' =>
      match ts_min l' with
      | None => Some t
      | Some m => Some (if ts_leb t m then t else m)
      end
  end.

Fixpoint ts_max (l : list Timestamp) : option Timestamp :=
  match l with
  | [] => None
  | t :: l' =>
      match ts_max l' with
      | None => Some t
      | Some m => Some (if ts_leb m t then t else m)
      end
  end.

Local Open Scope float_scope.
Local Open Scope string_scope.

(** ** Loader (lines 189-275)

    [pd.read_csv], the column renaming and [pd.to_datetime] produce the parsed
    table; it is the model's input [csv]. *)

Section Pipeline.

(** The numerical routines the program imports from pandas and scipy.
    [mannwhitneyu], [ttest_ind] and [pearsonr] may raise. *)
Class StatsLibrary : Type := {
  (** [Series.quantile(q)] *)
  quantile : list float -> float -> float;
  (** [Series.mean()] *)
  mean : list float -> float;
  (** Pearson's r of a list of complete (x, y) observations: the numeric
      kernel of [DataFrame.corr] *)
  pearson : list (float * float) -> float;
  (** [scipy.stats.pearsonr(x, y)]: (statistic, two-sided p-value) *)
  pearsonr : list float -> list float -> exc (float * float);
  (** [scipy.stats.mannwhitneyu(x, y, alternative='two-sided')] *)
  mannwhitneyu : list float -> list float -> exc (float * float);
  (** [scipy.stats.ttest_ind(x, y)] *)
  ttest_ind : list float -> list float -> exc (float * float);
  (** the format specification [:.4f] *)
  format_4f : float -> string
}.

Context `{StatsLibrary}.

Definition load_data (csv : DataFrame) : DataFrame :=
  let df := csv in
  (* Chlorophyll-a: remove values above 200 *)
  let df := loc_assign (fun r => Py.gt (cell r chlorophyll_a) 200) chlorophyll_a nan df in
  (* Turbidity: 99th percentile as threshold *)
  let turbidity_threshold := quantile (col df turbidity) 0.99 in
  let df := loc_assign (fun r => Py.gt (cell r turbidity) turbidity_threshold) turbidity nan df in
  (* Total alkalinity: remove values below 2000 *)
  let df := loc_assign (fun r => Py.lt (cell r ta) 2000) ta nan df in
  df.

Definition load_raw_data (csv : DataFrame) : DataFrame := csv.

(** ** Date-range filter (lines 364-377)

    [date_range] is the tuple returned by the date picker: zero, one or two
    dates. *)

Definition in_date_range (d0 d1 : date) (r : row) : bool :=
  date_leb d0 (ts_date (datetime r)) && date_leb (ts_date (datetime r)) d1.

Definition filter_by_date (df : DataFrame) (date_range : list date) : DataFrame :=
  match date_range with
  | [d0; d1] => filter (in_date_range d0 d1) df
  | _ => df
  end.

(** The module-level state every dashboard section reads. *)
Record Session : Type := {
  data : DataFrame;
  raw_data : DataFrame;
  filtered_data : DataFrame;
  filtered_raw_data : DataFrame
}.

Definition session (csv : DataFrame) (date_range : list date) : Session :=
  let data := load_data csv in
  let raw_data := load_raw_data csv in
  {| data := data;
     raw_data := raw_data;
     filtered_data := filter_by_date data date_range;
     filtered_raw_data := filter_by_date raw_data date_range |}.

(** The default value of the date picker (line 330). *)
Definition full_date_range (df : DataFrame) : option (list date) :=
  match ts_min (map datetime df), ts_max (map datetime df) with
  | Some lo, Some hi => Some [ts_date lo; ts_date hi]
  | _, _ => None
  end.

Definition variables : list column :=
  [temperature; pressure; salinity; chlorophyll_a; turbidity;
   ph; dissolved_oxygen; pco2; ta].

(** [var.replace('_', ' ').title()] *)
Definition var_label (var : column) : string :=
  Py.title (Py.replace "_" " " (column_name var)).

(** ** IQR outlier summary (lines 713-741) *)

Record outlier_entry : Type := {
  outlier_pct : float;
  outliers_count : nat;
  outlier_label : string
}.

Definition outlier_summary_of (var : column) (filtered_raw : DataFrame) : outlier_entry :=
  let values := dropna (col filtered_raw var) in
  if (0 <? List.length values)%nat then
    let Q1 := quantile values 0.25 in
    let Q3 := quantile values 0.75 in
    let IQR := Q3 - Q1 in
    let lower_bound := Q1 - 1.5 * IQR in
    let upper_bound := Q3 + 1.5 * IQR in
    let count :=
      List.length (filter (fun v => Py.lt v lower_bound || Py.gt v upper_bound) values) in
    let pct := (Py.float_of_nat count / Py.float_of_nat (List.length values)) * 100 in
    {| outlier_pct := pct; outliers_count := count; outlier_label := var_label var |}
  else
    {| outlier_pct := 0; outliers_count := 0; outlier_label := var_label var |}.

Definition outlier_summary (filtered_raw : DataFrame) : list outlier_entry :=
  map (fun var => outlier_summary_of var filtered_raw) variables.

(** ** Correlation and p-value matrices (lines 812-831) *)

Definition matrix : Type := list (list float).

(** [M[i, j]] *)
Definition at2 (M : matrix) (i j : nat) : float := nth j (nth i M []) nan.

(** [variables[i]] *)
Definition var_at (i : nat) : column := nth i variables temperature.

(** [DataFrame.corr()] with its defaults (Pearson, [min_periods = 1]), as
    pandas documents it: each pair of columns is correlated over the rows
    where both are present, a pair with fewer than [min_periods] such rows
    gets NaN, and entry (j, i) is the value computed for (i, j). *)
Definition min_periods : nat := 1.

Definition corr_entry (df : DataFrame) (xi yi : nat) : float :=
  let '(hi, lo) := if (yi <=? xi)%nat then (xi, yi) else (yi, xi) in
  let obs := dropna2 df (var_at hi) (var_at lo) in
  if (List.length obs <? min_periods)%nat then nan else pearson obs.

Definition DataFrame_corr (df : DataFrame) : matrix :=
  map (fun xi => map (fun yi => corr_entry df xi yi)
                     (Py.range 0 (List.length variables)))
      (Py.range 0 (List.length variables)).

(** One iteration of the p-value loop: the value stored at [p_values[i, j]]. *)
Definition p_value_entry (filtered : DataFrame) (i j : nat) : exc float :=
  if negb (i =? j)%nat then
    let valid_data := dropna2 filtered (var_at i) (var_at j) in
    if (2 <? List.length valid_data)%nat then
      '(_, p_val) <- pearsonr (map fst valid_data) (map snd valid_data) ;;
      ret p_val
    else ret 1.0
  else ret 0.0.

Definition p_values_matrix (filtered : DataFrame) : exc matrix :=
  for_each (fun i => for_each (fun j => p_value_entry filtered i j)
                              (Py.range 0 (List.length variables)))
           (Py.range 0 (List.length variables)).

(** ** Best-fit pairs (lines 932-954) *)

Record best_pair : Type := {
  var1 : column;
  var2 : column;
  var1_label : string;
  var2_label : string;
  r : float;
  r2 : float;
  p : float
}.

Definition threshold_r : float := sqrt 0.8.

(** The nested loop over the upper triangle, appending in enumeration order.
    [r_val**2] is the correctly rounded square [r_val * r_val]. *)
Definition best_pairs_found (corr_matrix p_values : matrix) : list best_pair :=
  flat_map (fun i =>
    flat_map (fun j =>
      let r_val := at2 corr_matrix i j in
      let p_val := at2 p_values i j in
      if Py.gt (abs r_val) threshold_r && Py.lt p_val 0.05 then
        [ {| var1 := var_at i; var2 := var_at j;
             var1_label := var_label (var_at i);
             var2_label := var_label (var_at j);
             r := r_val; r2 := r_val * r_val; p := p_val |} ]
      else [])
      (Py.range (i + 1) (List.length variables)))
    (Py.range 0 (List.length variables)).

End Pipeline.

(** [sorted(l, key=key, reverse=True)]: a stable sort into descending key
    order; an element is placed after the elements whose key is strictly
    greater and before the first one that is not. *)
Section SortedReverse.
Context {A : Type} (key : A -> float).

Fixpoint insert_reverse (x : A) (l : list A) : list A :=
  match l with
  | [] => [x]
  | y :: l' => if Py.lt (key x) (key y) then y :: insert_reverse x l' else x :: l
  end.

Definition sorted_reverse (l : list A) : list A :=
  fold_right insert_reverse [] l.
End SortedReverse.

Section Analyses.
Context `{StatsLibrary}.

(** Sort by R² (descending) and take the top 6 (line 954). *)
Definition best_pairs (corr_matrix p_values : matrix) : list best_pair :=
  firstn 6 (sorted_reverse r2 (best_pairs_found corr_matrix p_values)).

(** The "Data Overview" section's outlier chart reads [filtered_raw_data]. *)
Definition data_overview_outliers (s : Session) : list outlier_entry :=
  outlier_summary (filtered_raw_data s).

(** The "Statistical Analysis" section reads [filtered_data]. *)
Record statistics : Type := {
  corr_matrix : matrix;
  p_values : matrix;
  best : list best_pair
}.

Definition statistical_analysis (s : Session) : exc statistics :=
  let corr_matrix := DataFrame_corr (filtered_data s) in
  p_values <- p_values_matrix (filtered_data s) ;;
  ret {| corr_matrix := corr_matrix;
         p_values := p_values;
         best := best_pairs corr_matrix p_values |}.

(** ** Interannual comparison, 2024 vs 2025 (lines 1063-1265) *)

Definition variables_to_plot : list column :=
  [temperature; pressure; salinity; chlorophyll_a; turbidity;
   ph; dissolved_oxygen; pco2; ta].

Definition var_labels_dict (var : column) : string :=
  match var with
  | temperature => "Temperature"
  | pressure => "Pressure"
  | salinity => "Salinity"
  | chlorophyll_a => "Chlorophyll-a"
  | turbidity => "Turbidity"
  | ph => "pH"
  | dissolved_oxygen => "Dissolved Oxygen"
  | pco2 => "pCO2"
  | ta => "TA"
  end.

(** One dictionary of [summary_data]. *)
Record summary_row : Type := {
  Variable_label : string;
  Mean_2024 : float;
  Mean_2025 : float;
  Pct_Change : float;
  Significance : string;
  P_Value : float
}.

(** What one iteration of the loop over [variables_to_plot] produces: the
    two lines of the histogram annotation and the summary dictionary. *)
Record comparison : Type := {
  mw_result : string;
  t_result : string;
  test_text : string;
  summary : summary_row
}.

(** [data[data['datetime'].dt.year == year][var].dropna()] *)
Definition year_values (data : DataFrame) (year : Z) (var : column) : list float :=
  dropna (col (filter (fun r => (d_year (ts_date (datetime r)) =? year)%Z) data) var).

(** Line 1233. *)
Definition pct_change (mean_2024 mean_2025 : float) : float :=
  if Py.ne mean_2024 0 then ((mean_2025 - mean_2024) / mean_2024) * 100
  else infinity.

Definition compare_years (data : DataFrame) (var : column) : exc comparison :=
  let data_2024 := year_values data 2024 var in
  let data_2025 := year_values data 2025 var in
  '(mw_result, mw_p) <-
      try_except
        ('(mw_stat, mw_p) <- mannwhitneyu data_2024 data_2025 ;;
         ret ("Mann-Whitney U: p=" ++ format_4f mw_p, mw_p))
        (ret ("Mann-Whitney U: N/A", nan)) ;;
  '(t_result, t_p) <-
      try_except
        ('(t_stat, t_p) <- ttest_ind data_2024 data_2025 ;;
         ret ("T-test: p=" ++ format_4f t_p, t_p))
        (ret ("T-test: N/A", nan)) ;;
  let test_text := mw_result ++ "<br>" ++ t_result in
  let mean_2024 := mean data_2024 in
  let mean_2025 := mean data_2025 in
  let pct_change := pct_change mean_2024 mean_2025 in
  let significance :=
    if Py.lt mw_p 0.05 then "Significant" else "Not Significant" in
  ret {| mw_result := mw_result;
         t_result := t_result;
         test_text := test_text;
         summary := {| Variable_label := var_labels_dict var;
                       Mean_2024 := mean_2024;
                       Mean_2025 := mean_2025;
                       Pct_Change := pct_change;
                       Significance := significance;
                       P_Value := mw_p |} |}.

(** The section reads the module-level [data], not [filtered_data]. *)
Definition interannual_variability (s : Session) : exc (list comparison) :=
  for_each (compare_years (data s)) variables_to_plot.

Definition summary_data (comparisons : list comparison) : list summary_row :=
  map summary comparisons.

(** Line 1257. *)
Definition significant_changes (summary_data : list summary_row) : list summary_row :=
  filter (fun row => Py.lt (P_Value row) 0.05 && negb (Py.isnan (P_Value row)))
         summary_data.

End Analyses.

(** ** Vocabulary of the statements *)

(** Index pairs of the upper triangle of an [n x n] matrix, in the order the
    nested loop enumerates them. *)
Definition upper_triangle (n : nat) : list (nat * nat) :=
  flat_map (fun i => map (pair i) (Py.range (i + 1) n)) (Py.range 0 n).

(** Equality of index pairs is decidable. *)
Definition nat_pair_eq_dec (a b : nat * nat) : {a = b} + {a <> b}.
Proof. decide equality; apply Nat.eq_dec. Defined.

(** The selection test of the best-fit loop at entry (i, j). *)
Definition qualifies (corr_matrix p_values : matrix) (ij : nat * nat) : bool :=
  Py.gt (abs (at2 corr_matrix (fst ij) (snd ij))) threshold_r &&
  Py.lt (at2 p_values (fst ij) (snd ij)) 0.05.

(** The dictionary appended for entry (i, j). *)
Definition pair_entry (corr_matrix p_values : matrix) (ij : nat * nat) : best_pair :=
  {| var1 := var_at (fst ij); var2 := var_at (snd ij);
     var1_label := var_label (var_at (fst ij));
     var2_label := var_label (var_at (snd ij));
     r := at2 corr_matrix (fst ij) (snd ij);
     r2 := at2 corr_matrix (fst ij) (snd ij) * at2 corr_matrix (fst ij) (snd ij);
     p := at2 p_values (fst ij) (snd ij) |}.

(** A list in descending key order. *)
Definition descending {A : Type} (key : A -> float) : list A -> Prop :=
  StronglySorted (fun a b => Py.ge (key a) (key b) = true).


(** A cell is null. *)
Definition is_null (v : float) : Prop := v = nan.

(** The annotation line and the p-value one [try]/[except] block leaves
    behind, given the outcome of the library test it wraps. *)
Definition test_line (name : string) (fmt : float -> string)
    (outcome : exc (float * float)) : string * float :=
  match outcome with
  | Ok (_, p_val) => (name ++ ": p=" ++ fmt p_val, p_val)
  | Raise _ => (name ++ ": N/A", nan)
  end.

(** Calendar order of dates and chronological order of timestamps. *)
Definition date_le (a b : date) : Prop :=
  (d_year a < d_year b \/
   (d_year a = d_year b /\
    (d_month a < d_month b \/ (d_month a = d_month b /\ d_day a <= d_day b))))%Z.

Definition ts_le (a b : Timestamp) : Prop :=
  (date_le (ts_date a) (ts_date b) /\
   (date_le (ts_date b) (ts_date a) -> ts_time a <= ts_time b))%Z.

(** The three outlier rules applied to one row, for a given turbidity
    threshold. *)
Definition scrub_row (turbidity_threshold : float) (raw : row) : row :=
  let r1 := if Py.gt (cell raw chlorophyll_a) 200
            then set_cell chlorophyll_a nan raw else raw in
  let r2 := if Py.gt (cell r1 turbidity) turbidity_threshold
            then set_cell turbidity nan r1 else r1 in
  if Py.lt (cell r2 ta) 2000 then set_cell ta nan r2 else r2.

(** ** An executable instance of the library interface

    Used to run the model on concrete tables.  [mean], [quantile] and
    [pearson] follow the textbook formulas; the p-values are placeholders
    (the statements below hold for every instance). *)

Module Demo.

Definition mean (s : list float) : float :=
  fold_left add s 0 / Py.float_of_nat (List.length s).

Fixpoint insert_asc (x : float) (l : list float) : list float :=
  match l with
  | [] => [x]
  | y :: l' => if Py.lt y x then y :: insert_asc x l' else x :: l
  end.

(** The largest [k <= n] with [k <= h]. *)
Fixpoint floor_upto (h : float) (n : nat) : nat :=
  match n with
  | O => O
  | S k => if Py.le (Py.float_of_nat n) h then n else floor_upto h k
  end.

(** Linear interpolation between the two nearest order statistics. *)
Definition quantile (s : list float) (q : float) : float :=
  let v := fold_right insert_asc [] (dropna s) in
  match v with
  | [] => nan
  | _ =>
      let h := Py.float_of_nat (List.length v - 1) * q in
      let k := floor_upto h (List.length v - 1) in
      let lo := nth k v nan in
      let hi := nth (k + 1) v lo in
      lo + (h - Py.float_of_nat k) * (hi - lo)
  end.

(** One-pass (Welford) Pearson correlation, clipped to [-1, 1]; NaN when a
    variance is zero. *)
Definition pearson (obs : list (float * float)) : float :=
  let step (acc : float * float * float * float * float * float) (v : float * float) :=
    let '(nobs, meanx, meany, ssx, ssy, cxy) := acc in
    let '(vx, vy) := v in
    let nobs := nobs + 1 in
    let dx := vx - meanx in
    let dy := vy - meany in
    let meanx := meanx + 1 / nobs * dx in
    let meany := meany + 1 / nobs * dy in
    (nobs, meanx, meany, ssx + (vx - meanx) * dx, ssy + (vy - meany) * dy,
     cxy + (vx - meanx) * dy) in
  let '(_, _, _, ssx, ssy, cxy) := fold_left step obs (0, 0, 0, 0, 0, 0) in
  let divisor := sqrt (ssx * ssy) in
  if Py.ne divisor 0 then
    let val := cxy / divisor in
    if Py.gt val 1 then 1 else if Py.lt val (-1) then -1 else val
  else nan.

Definition pearsonr (x y : list float) : exc (float * float) :=
  if (List.length x <? 2)%nat
  then Raise "ValueError: x and y must have length at least 2."
  else let rho := pearson (combine x y) in Ok (rho, 1 - abs rho).

Definition two_sample_test (x y : list float) : exc (float * float) :=
  match x, y with
  | [], _ | _, [] => Raise "ValueError: samples must be of nonzero size."
  | _, _ => Ok (mean x - mean y, 1)
  end.

Definition library : StatsLibrary :=
  Build_StatsLibrary quantile mean pearson pearsonr
    two_sample_test two_sample_test (fun _ => "#.####").

(** A row from its date and the nine readings, in the order of
    [variables]. *)
Definition reading (y m d : Z) (t pr sa chl tu ph_ o2 pc ta_ : float) : row :=
  {| datetime := {| ts_date := mk_date y m d; ts_time := 0 |};
     cell := fun c =>
       match c with
       | temperature => t | pressure => pr | salinity => sa
       | chlorophyll_a => chl | turbidity => tu | ph => ph_
       | dissolved_oxygen => o2 | pco2 => pc | ta => ta_
       end |}.

(** Four days of readings; [pco2] is never measured, and the first row
    carries a chlorophyll spike of 250. *)
Definition sample_csv : DataFrame :=
  [ reading 2024 1 1   1 10 34 250 5 8.1 300 nan 2300;
    reading 2024 1 2   3 11 34 1   6 8.0 310 nan 1500;
    reading 2025 1 1   5 12 35 2   7 8.2 320 nan 2310;
    reading 2025 1 2   7 13 35 3 900 8.1 330 nan 2320 ].

(** A table whose only year is 2024: the second sample of every test is
    empty. *)
Definition only_2024 : DataFrame := firstn 2 sample_csv.

(** A 2024 mean of exactly zero followed by a colder 2025. *)
Definition zero_baseline : DataFrame :=
  [ reading 2024 1 1   0    10 34 1 5 8.1 300 400 2300;
    reading 2025 1 1   (-1) 10 34 1 5 8.1 300 400 2300 ].

End Demo.

(** ** Further parts of the dashboard *)

(** [sorted(l, reverse=True)] for elements compared with [lt]: the stable
    descending sort, as [sorted_reverse] is for a float key. *)
Section SortedReverseBy.
Context {A : Type} (lt : A -> A -> bool).

Fixpoint insert_reverse_by (x : A) (l : list A) : list A :=
  match l with
  | [] => [x]
  | y :: l' => if lt x y then y :: insert_reverse_by x l' else x :: l
  end.

Definition sorted_reverse_by (l : list A) : list A :=
  fold_right insert_reverse_by [] l.
End SortedReverseBy.

(** [CHART_COLORS] (lines 43-54). *)
Definition CHART_COLORS : list string :=
  ["#001219"; "#005F73"; "#0A9396"; "#94D2BD"; "#E9D8A6";
   "#EE9B00"; "#CA6702"; "#BB3E03"; "#AE2012"; "#9B2226"].

Section Views.
Context `{StatsLibrary}.

(** *** About: key metrics and the January-February comparison
    (lines 489-534) *)

(** [start_year], [end_year]: the years of the earliest and latest
    timestamps of [filtered_data]; [None] when the table is empty (NaT). *)
Definition temporal_coverage (filtered : DataFrame) : option (Z * Z) :=
  match ts_min (map datetime filtered), ts_max (map datetime filtered) with
  | Some lo, Some hi => Some (d_year (ts_date lo), d_year (ts_date hi))
  | _, _ => None
  end.

(** [data[(month == 1) | (month == 2)]] *)
Definition data_jan_feb (data : DataFrame) : DataFrame :=
  filter (fun row0 => ((d_month (ts_date (datetime row0)) =? 1) ||
                       (d_month (ts_date (datetime row0)) =? 2))%Z) data.

(** [df[df['datetime'].dt.year == year]] *)
Definition rows_of_year (df : DataFrame) (year : Z) : DataFrame :=
  filter (fun row0 => (d_year (ts_date (datetime row0)) =? year)%Z) df.

(** [pd.to_datetime(t.strftime('2024-%m-%d %H:%M:%S'))]: the year is
    replaced by 2024 and the time is cut to whole seconds. *)
Definition strftime_2024 (t : Timestamp) : Timestamp :=
  {| ts_date := mk_date 2024 (d_month (ts_date t)) (d_day (ts_date t));
     ts_time := (ts_time t / 1000000000 * 1000000000)%Z |}.

(** The [x_axis] columns of [data_2024] and [data_2025]. *)
Definition x_axis_2024 (data : DataFrame) : list Timestamp :=
  map datetime (rows_of_year (data_jan_feb data) 2024).

Definition x_axis_2025 (data : DataFrame) : list Timestamp :=
  map (fun row0 => strftime_2024 (datetime row0))
      (rows_of_year (data_jan_feb data) 2025).

(** *** Data Overview: completeness counts and the outlier chart
    (lines 651-659, 743-766) *)

(** [Series.notna().sum()] *)
Definition notna_sum (s : list float) : nat :=
  list_sum (map (fun v => if negb (Py.isnan v) then 1%nat else 0%nat) s).

Definition var_counts (filtered : DataFrame) : list nat :=
  map (fun var => notna_sum (col filtered var)) variables.

(** [<] on the tuples (percentage, count, label): decided by the first
    component on which the two tuples are not equal. *)
Definition entry_lt (a b : outlier_entry) : bool :=
  if Py.ne (outlier_pct a) (outlier_pct b)
  then Py.lt (outlier_pct a) (outlier_pct b)
  else if negb (outliers_count a =? outliers_count b)%nat
       then (outliers_count a <? outliers_count b)%nat
       else String.ltb (outlier_label a) (outlier_label b).

(** [sorted(zip(outlier_percentages, outlier_counts, var_labels_sorted),
    reverse=True)] *)
Definition sorted_data (filtered_raw : DataFrame) : list outlier_entry :=
  sorted_reverse_by entry_lt (outlier_summary filtered_raw).

Definition warm_to_cool_colors : list string := rev CHART_COLORS.

Definition color_map (n_vars : nat) : list string :=
  map (fun i => nth (i mod List.length warm_to_cool_colors) warm_to_cool_colors "")
      (Py.range 0 n_vars).

(** The arguments of the horizontal bar chart: the sorted lists, reversed. *)
Record outlier_chart : Type := {
  chart_y : list string;
  chart_x : list float;
  chart_colors : list string
}.

Definition outlier_bar_chart (filtered_raw : DataFrame) : outlier_chart :=
  let sorted_data := sorted_data filtered_raw in
  let outlier_percentages_sorted := map outlier_pct sorted_data in
  let var_labels_sorted := map outlier_label sorted_data in
  let n_vars := List.length outlier_percentages_sorted in
  {| chart_y := rev var_labels_sorted;
     chart_x := rev outlier_percentages_sorted;
     chart_colors := rev (color_map n_vars) |}.

(** *** Statistical Analysis: significance heat map and regression lines
    (lines 877-885, 972-989) *)

Definition significance_entry (p_values : matrix) (i j : nat) : float :=
  if (i =? j)%nat then nan
  else if Py.lt (at2 p_values i j) 0.05 then 1
  else 0.

Definition significance_matrix (p_values : matrix) : matrix :=
  map (fun i => map (fun j => significance_entry p_values i j)
                    (Py.range 0 (List.length variables)))
      (Py.range 0 (List.length variables)).

(** The rows a best-fit pair is plotted from, and the guard of its
    regression line. *)
Definition pair_valid_data (filtered : DataFrame) (pair : best_pair)
    : list (float * float) :=
  dropna2 filtered (var1 pair) (var2 pair).

Definition regression_fitted (filtered : DataFrame) (pair : best_pair) : bool :=
  (0 <? List.length (pair_valid_data filtered pair))%nat.

(** *** Interannual Variability: the list of significant changes
    (lines 1256-1265) *)

Definition direction (change : summary_row) : string :=
  if Py.gt (Pct_Change change) 0 then "↗️ Increase" else "↘️ Decrease".

(** The bullet list under "Significant Changes Detected", or [None] for the
    "NO SIGNIFICANT INTERANNUAL CHANGES DETECTED" message. *)
Definition significant_changes_list (summary_data : list summary_row)
    : option (list (string * string)) :=
  match significant_changes summary_data with
  | [] => None
  | changes => Some (map (fun change => (Variable_label change, direction change))
                         changes)
  end.

End Views.

(** *** Sidebar navigation and section routing (lines 299-321 and the
    [if]/[elif] chain at lines 388, 615, 784, 1036, 1276, 1474) *)

Definition menu_options : list string :=
  ["❄️ About DICHOSOcean";
   "📈 Data Overview";
   "📊 Statistical Analysis";
   "📅 Interannual Variability";
   "🐧 DICHOSO project";
   "📚 References"].

(** One rerun of the script: [session_state] holds the selected section if
    the key is present, [button option] is what the sidebar button of that
    option returns. *)
Definition select_section (session_state : option string)
    (button : string -> bool) : string :=
  let selected :=
    match session_state with
    | None => nth 0 menu_options ""
    | Some selected => selected
    end in
  fold_left (fun selected option => if button option then option else selected)
            menu_options selected.

Inductive dashboard_section : Type :=
| About | DataOverview | StatisticalAnalysis | InterannualVariability
| Project | References.

(** The branch of the routing chain that runs, if any. *)
Definition route (selected_section : string) : option dashboard_section :=
  if String.eqb selected_section "❄️ About DICHOSOcean" then Some About
  else if String.eqb selected_section "📈 Data Overview" then Some DataOverview
  else if String.eqb selected_section "📊 Statistical Analysis"
       then Some StatisticalAnalysis
  else if String.eqb selected_section "📅 Interannual Variability"
       then Some InterannualVariability
  else if String.eqb selected_section "🐧 DICHOSO project" then Some Project
  else if String.eqb selected_section "📚 References" then Some References
  else None.

(** [variables.index(c)] *)
Definition column_index (c : column) : nat :=
  match c with
  | temperature => 0 | pressure => 1 | salinity => 2 | chlorophyll_a => 3
  | turbidity => 4 | ph => 5 | dissolved_oxygen => 6 | pco2 => 7 | ta => 8
  end.

(** Calendar order, strict. *)
Definition date_lt (a b : date) : Prop := ~ date_le b a.

(** * Facts about binary64 arithmetic

    Everything below is derived from the specification of the primitive
    operations ([FloatAxioms]) by reasoning on [SpecFloat]. *)

Module F64.
Import B64.
Local Open Scope Z_scope.




















Ltac cmp_split :=
  repeat match goal with
  | H : context [Pos.compare_cont Eq ?a ?b] |- _ =>
      rewrite (Pos.compare_cont_spec a b Eq) in H; unfold Pos.switch_Eq in H
  | |- context [Pos.compare_cont Eq ?a ?b] =>
      rewrite (Pos.compare_cont_spec a b Eq); unfold Pos.switch_Eq
  | H : context [Z.compare ?a ?b] |- _ => destruct (Z.compare_spec a b)
  | |- context [Z.compare ?a ?b] => destruct (Z.compare_spec a b)
  | H : context [Pos.compare ?a ?b] |- _ => destruct (Pos.compare_spec a b)
  | |- context [Pos.compare ?a ?b] => destruct (Pos.compare_spec a b)
  end.

Ltac sf_cases x := destruct x as [[|]|[|]| |[|] ? ?].

Lemma SFcompare_swap x y :
  SFcompare y x = option_map CompOpp (SFcompare x y).
Proof.
  sf_cases x; sf_cases y; try reflexivity;
    unfold SFcompare; cmp_split; simpl; try reflexivity; lia.
Qed.

Lemma SFcompare_none x y : SFcompare x y = None -> x = S754_nan \/ y = S754_nan.
Proof.
  sf_cases x; sf_cases y; simpl; auto; discriminate.
Qed.

Lemma SFleb_trans x y z : SFleb x y = true -> SFleb y z = true -> SFleb x z = true.
Proof.
  unfold SFleb.
  sf_cases x; sf_cases y; try discriminate; sf_cases z; try discriminate; try reflexivity;
    unfold SFcompare; intros; cmp_split; simpl in *; try reflexivity; try discriminate; lia.
Qed.


(** *** The primitive operations *)

Local Open Scope float_scope.

Lemma Prim2SF_nan : Prim2SF nan = S754_nan.
Proof. reflexivity. Qed.

Lemma SFcompare_refl x : x <> S754_nan -> SFcompare x x = Some Eq.
Proof.
  sf_cases x; try reflexivity; try congruence; intros _; unfold SFcompare;
    rewrite Z.compare_refl, Pos.compare_cont_refl; reflexivity.
Qed.

Lemma isnan_true a : Py.isnan a = true <-> a = nan.
Proof.
  unfold Py.isnan, is_nan. rewrite eqb_spec. split.
  - intros E. apply Prim2SF_inj. rewrite Prim2SF_nan.
    destruct (Prim2SF a) eqn:Ea; try reflexivity;
      unfold SFeqb in E; rewrite SFcompare_refl in E by discriminate; discriminate.
  - intros ->. reflexivity.
Qed.

Lemma isnan_false a : Py.isnan a = false <-> Prim2SF a <> S754_nan.
Proof.
  split.
  - intros E N. assert (a = nan) as -> by (apply Prim2SF_inj; rewrite N; reflexivity).
    discriminate.
  - intros N. destruct (Py.isnan a) eqn:E; [| reflexivity].
    apply isnan_true in E. subst a. now destruct N.
Qed.

(** A comparison that holds has no NaN operand. *)
Lemma ltb_not_nan a b :
  (a <? b) = true -> Py.isnan a = false /\ Py.isnan b = false.
Proof.
  rewrite ltb_spec. unfold SFltb. intros E.
  split; apply isnan_false; intros N; rewrite N in E;
    [| destruct (Prim2SF a)]; discriminate.
Qed.

Lemma leb_not_nan a b :
  (a <=? b) = true -> Py.isnan a = false /\ Py.isnan b = false.
Proof.
  rewrite leb_spec. unfold SFleb. intros E.
  split; apply isnan_false; intros N; rewrite N in E;
    [| destruct (Prim2SF a)]; discriminate.
Qed.

(** Without NaN the order is total: [not (a < b)] is [b <= a]. *)
Lemma ltb_false_leb a b :
  Py.isnan a = false -> Py.isnan b = false ->
  (a <? b) = false -> (b <=? a) = true.
Proof.
  rewrite !isnan_false, ltb_spec, leb_spec. unfold SFltb, SFleb.
  intros Na Nb. rewrite (SFcompare_swap (Prim2SF a) (Prim2SF b)).
  destruct (SFcompare (Prim2SF a) (Prim2SF b)) as [[| |]|] eqn:E;
    simpl; try reflexivity; try discriminate.
  destruct (SFcompare_none _ _ E); contradiction.
Qed.

Lemma ltb_true_leb a b : (a <? b) = true -> (a <=? b) = true.
Proof.
  rewrite ltb_spec, leb_spec. unfold SFltb, SFleb.
  destruct (SFcompare (Prim2SF a) (Prim2SF b)) as [[| |]|]; auto.
Qed.

Lemma leb_trans a b c : (a <=? b) = true -> (b <=? c) = true -> (a <=? c) = true.
Proof. rewrite !leb_spec. apply SFleb_trans. Qed.


(** *** The correlation threshold *)




End F64.


(** * Facts about lists and the stable descending sort *)

Section SortFacts.
Context {A : Type} (key : A -> float).

Lemma insert_reverse_perm x l : Permutation (insert_reverse key x l) (x :: l).
Proof.
  induction l as [|y l IH]; simpl; [reflexivity |].
  destruct (Py.lt (key x) (key y)); [| reflexivity].
  rewrite IH. apply perm_swap.
Qed.

Lemma sorted_reverse_perm l : Permutation (sorted_reverse key l) l.
Proof.
  induction l as [|x l IH]; simpl; [constructor |].
  rewrite insert_reverse_perm. now constructor.
Qed.







End SortFacts.

Lemma In_firstn {A} (n : nat) (l : list A) (x : A) : In x (firstn n l) -> In x l.
Proof.
  intros Hx. rewrite <- (firstn_skipn n l). apply in_or_app. now left.
Qed.

Lemma flat_map_select {A B} (c : A -> bool) (f : A -> B) (l : list A) :
  flat_map (fun a => if c a then [f a] else []) l = map f (filter c l).
Proof.
  induction l as [|a l IH]; simpl; [reflexivity |].
  rewrite IH. now destruct (c a).
Qed.

Lemma map_filter_pair {B} (c : nat * nat -> bool) (f : nat * nat -> B) i (l : list nat) :
  map (fun j => f (i, j)) (filter (fun j => c (i, j)) l) =
  map f (filter c (map (pair i) l)).
Proof.
  induction l as [|j l IH]; simpl; [reflexivity |].
  destruct (c (i, j)); simpl; now rewrite IH.
Qed.

Lemma upper_triangle_In n i j :
  In (i, j) (upper_triangle n) <-> (i < j < n)%nat.
Proof.
  unfold upper_triangle, Py.range. rewrite in_flat_map. split.
  - intros [i' [Hi Hj]]. apply in_map_iff in Hj as [j' [E Hj]].
    inversion E; subst. apply in_seq in Hi, Hj. lia.
  - intros Hij. exists i. split; [apply in_seq; lia |].
    apply in_map_iff. exists j. split; [reflexivity | apply in_seq; lia].
Qed.

Lemma flat_map_triangle {B} (c : nat * nat -> bool) (f : nat * nat -> B)
    (g : nat -> list nat) (l : list nat) :
  flat_map (fun i => map (fun j => f (i, j)) (filter (fun j => c (i, j)) (g i))) l =
  map f (filter c (flat_map (fun i => map (pair i) (g i)) l)).
Proof.
  induction l as [|i l IH]; simpl; [reflexivity |].
  now rewrite filter_app, map_app, IH, map_filter_pair.
Qed.

Lemma upper_triangle_NoDup : NoDup (upper_triangle 9).
Proof.
  replace (upper_triangle 9) with (nodup nat_pair_eq_dec (upper_triangle 9))
    by (vm_compute; reflexivity).
  apply NoDup_nodup.
Qed.

(** * The best-fit pair selection *)

Lemma best_pairs_found_select corr_matrix p_values :
  best_pairs_found corr_matrix p_values =
  map (pair_entry corr_matrix p_values)
      (filter (qualifies corr_matrix p_values) (upper_triangle 9)).
Proof.
  unfold best_pairs_found, upper_triangle.
  change (List.length variables) with 9%nat.
  rewrite <- (flat_map_triangle (qualifies corr_matrix p_values)
                (pair_entry corr_matrix p_values) (fun i => Py.range (i + 1) 9)).
  apply flat_map_ext. intros i.
  apply (flat_map_select (fun j => qualifies corr_matrix p_values (i, j))
           (fun j => pair_entry corr_matrix p_values (i, j))).
Qed.




(** * The loader and the range selector *)

Section LoaderFacts.
Context `{StatsLibrary}.

Ltac scrub_cases thr raw :=
  unfold scrub_row;
  destruct (Py.gt (cell raw chlorophyll_a) 200); simpl;
  destruct (Py.gt (cell raw turbidity) thr); simpl;
  destruct (Py.lt (cell raw ta) 2000); simpl; try reflexivity.

Lemma col_loc_assign_other mask c v df c' :
  column_eqb c c' = false -> col (loc_assign mask c v df) c' = col df c'.
Proof.
  intros E. unfold col, loc_assign. rewrite map_map. apply map_ext.
  intros row0. destruct (mask row0); simpl; [now rewrite E | reflexivity].
Qed.

Lemma load_data_scrub csv :
  load_data csv = map (scrub_row (quantile (col csv turbidity) 0.99)) csv.
Proof.
  unfold load_data. cbv zeta. rewrite col_loc_assign_other by reflexivity.
  unfold loc_assign. now rewrite !map_map.
Qed.

Lemma scrub_row_datetime thr raw : datetime (scrub_row thr raw) = datetime raw.
Proof. scrub_cases thr raw. Qed.

Lemma scrub_row_chlorophyll thr raw :
  cell (scrub_row thr raw) chlorophyll_a =
  if Py.gt (cell raw chlorophyll_a) 200 then nan else cell raw chlorophyll_a.
Proof. scrub_cases thr raw. Qed.

Lemma scrub_row_turbidity thr raw :
  cell (scrub_row thr raw) turbidity =
  if Py.gt (cell raw turbidity) thr then nan else cell raw turbidity.
Proof. scrub_cases thr raw. Qed.

Lemma scrub_row_ta thr raw :
  cell (scrub_row thr raw) ta =
  if Py.lt (cell raw ta) 2000 then nan else cell raw ta.
Proof. scrub_cases thr raw. Qed.

Lemma scrub_row_other thr raw c :
  c <> chlorophyll_a -> c <> turbidity -> c <> ta ->
  cell (scrub_row thr raw) c = cell raw c.
Proof.
  intros. destruct c; try congruence; scrub_cases thr raw.
Qed.

Lemma filter_by_date_map (f : row -> row) df date_range :
  (forall row0, datetime (f row0) = datetime row0) ->
  filter_by_date (map f df) date_range = map f (filter_by_date df date_range).
Proof.
  intros Hf. destruct date_range as [|d0 [|d1 [|]]]; try reflexivity.
  unfold filter_by_date. induction df as [|row0 df IH]; simpl; [reflexivity |].
  unfold in_date_range at 1. rewrite Hf. fold (in_date_range d0 d1 row0).
  destruct (in_date_range d0 d1 row0); simpl; now rewrite IH.
Qed.

Lemma Forall2_map_r {X Y} (P : X -> Y -> Prop) (f : X -> Y) l :
  (forall a, In a l -> P a (f a)) -> Forall2 P l (map f l).
Proof.
  induction l as [|a l IH]; simpl; intros Hp; constructor; auto.
Qed.

Lemma not_gt_cases v bound :
  Py.isnan bound = false -> Py.gt v bound = false ->
  is_null v \/ Py.le v bound = true.
Proof.
  intros Nb Hv. destruct (Py.isnan v) eqn:Nv.
  - left. now apply F64.isnan_true.
  - right. now apply F64.ltb_false_leb.
Qed.

Lemma not_lt_cases v bound :
  Py.isnan bound = false -> Py.lt v bound = false ->
  is_null v \/ Py.ge v bound = true.
Proof.
  intros Nb Hv. destruct (Py.isnan v) eqn:Nv.
  - left. now apply F64.isnan_true.
  - right. now apply F64.ltb_false_leb.
Qed.

(** C6. Every clean row has chlorophyll_a null or at most 200 and ta null
    or at least 2000; the clean table has the rows of the raw one, in the
    same order and with the same timestamps; the raw load returns the parsed
    table unchanged; a chlorophyll reading of 250 is null in the clean row
    and still 250 in the raw row. *)
Theorem clean_load_bounds (csv : DataFrame) :
  load_raw_data csv = csv /\
  Forall (fun clean =>
            (is_null (cell clean chlorophyll_a) \/
             Py.le (cell clean chlorophyll_a) 200 = true) /\
            (is_null (cell clean ta) \/ Py.ge (cell clean ta) 2000 = true))
         (load_data csv) /\
  Forall2 (fun raw clean =>
             datetime clean = datetime raw /\
             (Py.gt (cell raw chlorophyll_a) 200 = true ->
              is_null (cell clean chlorophyll_a)) /\
             (cell raw chlorophyll_a = 250 -> is_null (cell clean chlorophyll_a)))
          (load_raw_data csv) (load_data csv).
Proof.
  split; [reflexivity |]. rewrite load_data_scrub.
  set (thr := quantile (col csv turbidity) 0.99). split.
  - apply Forall_forall. intros clean Hc. apply in_map_iff in Hc as [raw [<- _]].
    rewrite scrub_row_chlorophyll, scrub_row_ta. split.
    + destruct (Py.gt (cell raw chlorophyll_a) 200) eqn:E; [left; reflexivity |].
      now apply not_gt_cases.
    + destruct (Py.lt (cell raw ta) 2000) eqn:E; [left; reflexivity |].
      now apply not_lt_cases.
  - unfold load_raw_data. apply Forall2_map_r. intros raw _.
    split; [apply scrub_row_datetime |].
    split; intros E; rewrite scrub_row_chlorophyll, E; reflexivity.
Qed.

(** C2. The turbidity threshold is the 99th percentile of the whole parsed
    table; the date-filtered clean table is the date-filtered raw table with
    the outlier rules applied under that same threshold, so filtering before
    or after the nulling gives the same table, and a turbidity cell of a
    selected row is nulled exactly when it exceeds the full-table
    threshold, whatever the date range. *)
Theorem turbidity_threshold_range_invariant (csv : DataFrame) (date_range : list date) :
  let thr := quantile (col csv turbidity) 0.99 in
  let s := session csv date_range in
  load_data csv = map (scrub_row thr) csv /\
  filtered_data s = map (scrub_row thr) (filter_by_date csv date_range) /\
  filter_by_date (map (scrub_row thr) csv) date_range =
    map (scrub_row thr) (filter_by_date csv date_range) /\
  Forall2 (fun raw clean =>
             datetime clean = datetime raw /\
             cell clean turbidity =
               if Py.gt (cell raw turbidity) thr then nan else cell raw turbidity)
          (filtered_raw_data s) (filtered_data s).
Proof.
  intros thr s.
  assert (E : filtered_data s = map (scrub_row thr) (filter_by_date csv date_range)).
  { unfold s, session. simpl. rewrite load_data_scrub.
    apply filter_by_date_map, scrub_row_datetime. }
  split; [apply load_data_scrub |]. split; [exact E |].
  split; [apply filter_by_date_map, scrub_row_datetime |].
  rewrite E. unfold s, session, load_raw_data. simpl.
  apply Forall2_map_r. intros raw _.
  split; [apply scrub_row_datetime | apply scrub_row_turbidity].
Qed.

End LoaderFacts.

Section RangeSelector.
Context `{StatsLibrary}.
Local Open Scope Z_scope.

Ltac bool_to_Z :=
  repeat rewrite ?orb_true_iff, ?andb_true_iff, ?orb_false_iff, ?andb_false_iff,
    ?Z.ltb_lt, ?Z.eqb_eq, ?Z.leb_le, ?Z.ltb_ge, ?Z.eqb_neq, ?Z.leb_gt in *.

Lemma date_leb_le a b : date_leb a b = true <-> date_le a b.
Proof.
  destruct a as [ya ma da], b as [yb mb db]. unfold date_leb, date_le; simpl.
  bool_to_Z. lia.
Qed.

Lemma ts_leb_le a b : ts_leb a b = true <-> ts_le a b.
Proof.
  destruct a as [[ya ma da] ta], b as [[yb mb db] tb].
  unfold ts_leb, ts_le, date_eqb, date_leb, date_le; simpl.
  destruct ((ya =? yb) && (ma =? mb) && (da =? db))%bool eqn:E; bool_to_Z; lia.
Qed.

Lemma ts_leb_total a b : ts_leb a b = false -> ts_le b a.
Proof.
  intros E. apply ts_leb_le. revert E.
  destruct a as [[ya ma da] ta], b as [[yb mb db] tb].
  unfold ts_leb, date_eqb, date_leb; simpl.
  destruct ((ya =? yb) && (ma =? mb) && (da =? db))%bool eqn:E1;
    destruct ((yb =? ya) && (mb =? ma) && (db =? da))%bool eqn:E2;
    bool_to_Z; lia.
Qed.

Lemma ts_le_refl a : ts_le a a.
Proof. destruct a as [[ya ma da] ta]. unfold ts_le, date_le; simpl. lia. Qed.

Lemma ts_le_trans a b c : ts_le a b -> ts_le b c -> ts_le a c.
Proof.
  destruct a as [[ya ma da] ta], b as [[yb mb db] tb], c as [[yc mc dc] tc].
  unfold ts_le, date_le; simpl. lia.
Qed.

Lemma ts_le_date a b : ts_le a b -> date_le (ts_date a) (ts_date b).
Proof. now intros [Hd _]. Qed.

Lemma ts_min_le l lo : ts_min l = Some lo -> Forall (fun t => ts_le lo t) l.
Proof.
  revert lo. induction l as [|t l IH]; intros lo E; [constructor |].
  simpl in E. destruct (ts_min l) as [m|] eqn:Em.
  - specialize (IH m eq_refl). destruct (ts_leb t m) eqn:Etm; inversion E; subst.
    + apply ts_leb_le in Etm. constructor; [apply ts_le_refl |].
      eapply Forall_impl; [| exact IH]. intros u Hu.
      apply (ts_le_trans _ m); assumption.
    + constructor; [now apply ts_leb_total | exact IH].
  - inversion E; subst. destruct l; [| simpl in Em; destruct (ts_min l); discriminate].
    constructor; [apply ts_le_refl | constructor].
Qed.

Lemma ts_max_ge l hi : ts_max l = Some hi -> Forall (fun t => ts_le t hi) l.
Proof.
  revert hi. induction l as [|t l IH]; intros hi E; [constructor |].
  simpl in E. destruct (ts_max l) as [m|] eqn:Em.
  - specialize (IH m eq_refl). destruct (ts_leb m t) eqn:Etm; inversion E; subst.
    + apply ts_leb_le in Etm. constructor; [apply ts_le_refl |].
      eapply Forall_impl; [| exact IH]. intros u Hu.
      apply (ts_le_trans _ m); assumption.
    + constructor; [now apply ts_leb_total | exact IH].
  - inversion E; subst. destruct l; [| simpl in Em; destruct (ts_max l); discriminate].
    constructor; [apply ts_le_refl | constructor].
Qed.

Lemma filter_all {X} (f : X -> bool) l : Forall (fun a => f a = true) l -> filter f l = l.
Proof.
  induction 1 as [|a l Ha _ IH]; simpl; [reflexivity |]. now rewrite Ha, IH.
Qed.

Lemma in_date_range_spec d0 d1 row0 :
  in_date_range d0 d1 row0 = true <->
  date_le d0 (ts_date (datetime row0)) /\ date_le (ts_date (datetime row0)) d1.
Proof.
  unfold in_date_range. now rewrite andb_true_iff, !date_leb_le.
Qed.

(** C7. With both bounds the selector keeps, in their original order,
    exactly the rows whose calendar date lies in the inclusive range; with
    any other number of bounds it returns the table unchanged; selecting the
    dates of the earliest and latest timestamps returns the whole table. *)
Theorem range_selector (df : DataFrame) :
  (forall d0 d1,
      filter_by_date df [d0; d1] = filter (in_date_range d0 d1) df /\
      forall row0,
        In row0 (filter_by_date df [d0; d1]) <->
        In row0 df /\ date_le d0 (ts_date (datetime row0)) /\
        date_le (ts_date (datetime row0)) d1) /\
  (forall date_range,
      List.length date_range <> 2%nat -> filter_by_date df date_range = df) /\
  (forall date_range,
      full_date_range df = Some date_range -> filter_by_date df date_range = df).
Proof.
  split; [| split].
  - intros d0 d1. split; [reflexivity |]. intros row0. simpl.
    now rewrite filter_In, in_date_range_spec.
  - intros [|d0 [|d1 [|d2 l]]] Hl; try reflexivity. now destruct Hl.
  - intros date_range E. unfold full_date_range in E.
    destruct (ts_min (map datetime df)) as [lo|] eqn:Elo; [| discriminate].
    destruct (ts_max (map datetime df)) as [hi|] eqn:Ehi; [| discriminate].
    inversion E; subst. simpl. apply filter_all.
    apply ts_min_le in Elo. apply ts_max_ge in Ehi.
    rewrite Forall_map in Elo, Ehi. rewrite Forall_forall in *.
    intros row0 Hr. apply in_date_range_spec.
    split; apply ts_le_date; auto.
Qed.

(** The range picker's default on the sample table selects all four rows. *)
Lemma range_selector_sample :
  full_date_range Demo.sample_csv = Some [mk_date 2024 1 1; mk_date 2025 1 2] /\
  filter_by_date Demo.sample_csv [mk_date 2024 1 1; mk_date 2025 1 2] = Demo.sample_csv /\
  filter_by_date Demo.sample_csv [mk_date 2024 1 2] = Demo.sample_csv /\
  List.length (filter_by_date Demo.sample_csv [mk_date 2024 1 2; mk_date 2025 1 1]) = 2%nat.
Proof.
  destruct (range_selector Demo.sample_csv) as (_ & Hdeg & Hfull).
  split; [reflexivity |].
  split; [apply Hfull; reflexivity |].
  split; [apply Hdeg; simpl; lia | reflexivity].
Defined.

End RangeSelector.

(** * The IQR outlier summary *)

Section OutlierSummary.
Context `{StatsLibrary}.

Lemma dropna_all_null s : Forall is_null s -> dropna s = [].
Proof.
  induction 1 as [|v s Hv _ IH]; [reflexivity |].
  unfold is_null in Hv; subst v. simpl. exact IH.
Qed.

(** C8. The summary has one entry per variable, each a function of that
    variable's column alone; for a variable with no non-null value the entry
    is count 0 and percentage 0, reached without any quantile or division. *)
Theorem iqr_summary_per_variable (filtered_raw : DataFrame) :
  outlier_summary filtered_raw =
    map (fun var => outlier_summary_of var filtered_raw) variables /\
  (forall var other,
      col filtered_raw var = col other var ->
      outlier_summary_of var filtered_raw = outlier_summary_of var other) /\
  (forall var,
      Forall is_null (col filtered_raw var) ->
      outliers_count (outlier_summary_of var filtered_raw) = 0%nat /\
      outlier_pct (outlier_summary_of var filtered_raw) = 0 /\
      outlier_summary_of var filtered_raw =
        {| outlier_pct := 0; outliers_count := 0; outlier_label := var_label var |}).
Proof.
  split; [reflexivity |]. split.
  - intros var other E. unfold outlier_summary_of. now rewrite E.
  - intros var Hn. unfold outlier_summary_of.
    rewrite (dropna_all_null _ Hn). simpl. auto.
Qed.

End OutlierSummary.

(** On the sample table [pco2] is never measured: its entry is (0, 0). *)
Lemma iqr_summary_sample :
  Forall is_null (col Demo.sample_csv pco2) /\
  outliers_count (@outlier_summary_of Demo.library pco2 Demo.sample_csv) = 0%nat /\
  outlier_pct (@outlier_summary_of Demo.library pco2 Demo.sample_csv) = 0.
Proof.
  assert (Hn : Forall is_null (col Demo.sample_csv pco2))
    by (repeat constructor).
  split; [exact Hn |].
  destruct (@iqr_summary_per_variable Demo.library Demo.sample_csv) as (_ & _ & Hz).
  destruct (Hz pco2 Hn) as (Hc & Hp & _). split; assumption.
Defined.

(** * The interannual comparison *)

Section Interannual.
Context `{StatsLibrary}.

Lemma for_each_total {X Y} (f : X -> exc Y) (P : X -> Y -> Prop) (l : list X) :
  (forall a, exists b, f a = Ok b /\ P a b) ->
  exists bs, for_each f l = Ok bs /\ Forall2 P l bs.
Proof.
  intros Hf. induction l as [|a l [bs [E Hbs]]]; simpl.
  - exists []. split; [reflexivity | constructor].
  - destruct (Hf a) as [b [Eb Hb]]. exists (b :: bs).
    rewrite Eb; simpl. rewrite E; simpl. split; [reflexivity | now constructor].
Qed.

(** What one iteration of the comparison loop returns. *)
Lemma compare_years_result data var :
  let d24 := year_values data 2024 var in
  let d25 := year_values data 2025 var in
  let mw := test_line "Mann-Whitney U" format_4f (mannwhitneyu d24 d25) in
  let tt := test_line "T-test" format_4f (ttest_ind d24 d25) in
  compare_years data var =
  Ok {| mw_result := fst mw;
        t_result := fst tt;
        test_text := fst mw ++ "<br>" ++ fst tt;
        summary := {| Variable_label := var_labels_dict var;
                      Mean_2024 := mean d24;
                      Mean_2025 := mean d25;
                      Pct_Change := pct_change (mean d24) (mean d25);
                      Significance := if Py.lt (snd mw) 0.05
                                      then "Significant" else "Not Significant";
                      P_Value := snd mw |} |}.
Proof.
  unfold compare_years. cbv zeta.
  destruct (mannwhitneyu _ _) as [[mw_stat mw_p]|e1];
    destruct (ttest_ind _ _) as [[t_stat t_p]|e2]; reflexivity.
Qed.

(** C3. The percent change is [(mean2 - mean1) / mean1 * 100] whenever the
    2024 mean is not equal to zero (a NaN mean included), and positive
    infinity, whatever the sign of the difference, when it is zero; the
    summary row carries that value for the two partition means. *)
Theorem pct_change_cases (mean_2024 mean_2025 : float) :
  (Py.ne mean_2024 0 = true ->
   pct_change mean_2024 mean_2025 = ((mean_2025 - mean_2024) / mean_2024) * 100) /\
  (Py.ne mean_2024 0 = false -> pct_change mean_2024 mean_2025 = infinity) /\
  (forall data var, exists c,
      compare_years data var = Ok c /\
      Mean_2024 (summary c) = mean (year_values data 2024 var) /\
      Mean_2025 (summary c) = mean (year_values data 2025 var) /\
      Pct_Change (summary c) =
        pct_change (Mean_2024 (summary c)) (Mean_2025 (summary c))).
Proof.
  unfold pct_change. split; [| split].
  - now intros ->.
  - now intros ->.
  - intros data var. eexists. split; [apply compare_years_result |].
    simpl. auto.
Qed.

(** C5. The comparison loop always runs to completion with one result per
    variable; in each, the Mann-Whitney line and p-value are determined by
    the outcome of that test alone ("N/A" and NaN when it raised), the
    t-test line by the outcome of the t-test alone, and the two means and
    the percent change are computed whatever the tests did. *)
Theorem year_comparison_survives_test_failures (s : Session) :
  exists rows,
    interannual_variability s = Ok rows /\
    List.length rows = List.length variables_to_plot /\
    Forall2 (fun var c =>
      let d24 := year_values (data s) 2024 var in
      let d25 := year_values (data s) 2025 var in
      (mw_result c, P_Value (summary c)) =
        test_line "Mann-Whitney U" format_4f (mannwhitneyu d24 d25) /\
      t_result c = fst (test_line "T-test" format_4f (ttest_ind d24 d25)) /\
      (forall err, mannwhitneyu d24 d25 = Raise err ->
                   mw_result c = "Mann-Whitney U: N/A") /\
      (forall err, ttest_ind d24 d25 = Raise err -> t_result c = "T-test: N/A") /\
      Variable_label (summary c) = var_labels_dict var /\
      Mean_2024 (summary c) = mean d24 /\
      Mean_2025 (summary c) = mean d25 /\
      Pct_Change (summary c) = pct_change (mean d24) (mean d25))
      variables_to_plot rows.
Proof.
  unfold interannual_variability.
  edestruct (for_each_total (compare_years (data s))) as [rows [E Hrows]];
    [| exists rows; split; [exact E | split; [| exact Hrows]]].
  - intros var. eexists. split; [apply compare_years_result |]. simpl.
    repeat split; try reflexivity.
    + now destruct (test_line _ _ _).
    + now intros err ->.
    + now intros err ->.
  - symmetry. eapply Forall2_length, Hrows.
Qed.

(** C9. The interannual section is computed from the clean table of the
    whole file: sessions that differ only in the selected date range produce
    the same comparison records and the same list of significant changes. *)
Theorem interannual_ignores_date_range (csv : DataFrame) (range1 range2 : list date) :
  data (session csv range1) = load_data csv /\
  interannual_variability (session csv range1) =
    for_each (compare_years (load_data csv)) variables_to_plot /\
  interannual_variability (session csv range1) =
    interannual_variability (session csv range2) /\
  (forall rows1 rows2,
      interannual_variability (session csv range1) = Ok rows1 ->
      interannual_variability (session csv range2) = Ok rows2 ->
      rows1 = rows2 /\
      significant_changes (summary_data rows1) =
        significant_changes (summary_data rows2)).
Proof.
  split; [reflexivity |]. split; [reflexivity |]. split; [reflexivity |].
  intros rows1 rows2 E1 E2.
  assert (E : rows1 = rows2) by (unfold interannual_variability in *; simpl in *; congruence).
  now subst.
Qed.

(** C10. When the Mann-Whitney test raises for a variable, its summary row
    has a NaN p-value and reads "Not Significant", its annotation line reads
    "N/A", and the row is never among the significant changes. *)
Theorem unavailable_test_reads_not_significant
    (data : DataFrame) (var : column) (err : string) :
  mannwhitneyu (year_values data 2024 var) (year_values data 2025 var) = Raise err ->
  exists c,
    compare_years data var = Ok c /\
    mw_result c = "Mann-Whitney U: N/A" /\
    P_Value (summary c) = nan /\
    Py.lt (P_Value (summary c)) 0.05 = false /\
    Significance (summary c) = "Not Significant" /\
    forall summary_rows, ~ In (summary c) (significant_changes summary_rows).
Proof.
  intros E. eexists. split; [apply compare_years_result |].
  rewrite E. simpl. repeat split.
  intros summary_rows Hin. unfold significant_changes in Hin.
  apply filter_In in Hin as [_ Hp]. simpl in Hp. discriminate.
Qed.

End Interannual.

(** Means 2 and 6 give a change of 200 percent; a zero baseline
    gives infinity. *)
Lemma pct_change_sample :
  Py.ne 2 0 = true /\ pct_change 2 6 = 200 /\
  Py.ne 0 0 = false /\ pct_change 0 6 = infinity.
Proof.
  destruct (@pct_change_cases Demo.library 2 6) as (Hnz & _ & _).
  destruct (@pct_change_cases Demo.library 0 6) as (_ & Hz & _).
  split; [reflexivity |]. split; [rewrite Hnz; reflexivity |].
  split; [reflexivity |]. apply Hz. reflexivity.
Defined.

(** With a 2024 mean of 0 and a 2025 mean of -1 the difference is negative,
    yet the percent change is positive infinity, not negative infinity. *)
Lemma pct_change_sign_lost :
  Py.ne 0 0 = false /\
  Py.lt (-1 - 0) 0 = true /\
  pct_change 0 (-1) = infinity /\
  (pct_change 0 (-1) =? neg_infinity)%float = false /\
  exists c,
    @compare_years Demo.library Demo.zero_baseline temperature = Ok c /\
    Mean_2024 (summary c) = 0 /\
    Mean_2025 (summary c) = -1 /\
    Pct_Change (summary c) = infinity.
Proof.
  repeat (split; [reflexivity |]).
  eexists. split; [reflexivity |]. repeat split.
Qed.

(** On a table with no 2025 rows the Mann-Whitney test raises for
    temperature, and the summary reads "Not Significant". *)
Lemma unavailable_test_sample :
  exists c,
    @compare_years Demo.library Demo.only_2024 temperature = Ok c /\
    mw_result c = "Mann-Whitney U: N/A" /\
    P_Value (summary c) = nan /\
    Py.lt (P_Value (summary c)) 0.05 = false /\
    Significance (summary c) = "Not Significant" /\
    forall summary_rows, ~ In (summary c) (significant_changes summary_rows).
Proof.
  apply (@unavailable_test_reads_not_significant Demo.library Demo.only_2024 temperature
           "ValueError: samples must be of nonzero size.").
  reflexivity.
Defined.

(** The date range does reach the filtered tables, and only them. *)
Lemma date_range_reaches_filtered_data :
  List.length (filtered_data (@session Demo.library Demo.sample_csv [])) = 4%nat /\
  List.length (filtered_data (@session Demo.library Demo.sample_csv
                                [mk_date 2024 1 1; mk_date 2024 1 2])) = 2%nat /\
  List.length (data (@session Demo.library Demo.sample_csv
                       [mk_date 2024 1 1; mk_date 2024 1 2])) = 4%nat.
Proof. repeat split. Qed.

(** * Correlation and p-value matrices *)

Section Correlation.
Context `{StatsLibrary}.

Lemma for_each_seq_nth {Y} (f : nat -> exc Y) (d : Y) n :
  forall a bs, for_each f (seq a n) = Ok bs ->
  forall k, (k < n)%nat -> f (a + k)%nat = Ok (nth k bs d).
Proof.
  induction n as [|n IH]; intros a bs E k Hk; [lia |].
  simpl in E. destruct (f a) as [b|] eqn:Ea; [| discriminate]. simpl in E.
  destruct (for_each f (seq (S a) n)) as [bs'|] eqn:Ebs; [| discriminate].
  simpl in E. inversion E; subst. destruct k as [|k]; simpl.
  - now rewrite Nat.add_0_r.
  - rewrite <- Nat.add_succ_comm. apply (IH (S a) bs' Ebs). lia.
Qed.

Lemma corr_entry_sym df i j : corr_entry df i j = corr_entry df j i.
Proof.
  unfold corr_entry.
  destruct (j <=? i)%nat eqn:E1, (i <=? j)%nat eqn:E2; try reflexivity.
  - apply Nat.leb_le in E1, E2. now replace j with i by lia.
  - apply Nat.leb_gt in E1, E2. lia.
Qed.

Lemma DataFrame_corr_at df i j :
  (i < 9)%nat -> (j < 9)%nat -> at2 (DataFrame_corr df) i j = corr_entry df i j.
Proof.
  intros Hi Hj.
  do 9 (destruct i as [|i];
        [do 9 (destruct j as [|j]; [reflexivity |]); lia |]).
  lia.
Qed.

Lemma not_isnan_iff v : negb (Py.isnan v) = true <-> v <> nan.
Proof.
  rewrite negb_true_iff. split.
  - intros E ->. discriminate.
  - intros N. destruct (Py.isnan v) eqn:E; [| reflexivity].
    apply F64.isnan_true in E. contradiction.
Qed.

Lemma dropna2_In df a b x y :
  In (x, y) (dropna2 df a b) <->
  exists row0, In row0 df /\ cell row0 a = x /\ cell row0 b = y /\ x <> nan /\ y <> nan.
Proof.
  unfold dropna2. rewrite filter_In, in_map_iff, andb_true_iff, !not_isnan_iff. simpl.
  split.
  - intros [[row0 [E Hr]] [Nx Ny]]. inversion E; subst. exists row0. auto.
  - intros [row0 (Hr & <- & <- & Nx & Ny)]. split; [exists row0 |]; auto.
Qed.

Lemma dropna2_all_null df a b : Forall is_null (col df a) -> dropna2 df a b = [].
Proof.
  unfold col, dropna2. induction df as [|row0 df IH]; simpl; intros Hn; [reflexivity |].
  inversion Hn as [|? ? H0 Hn']; subst. unfold is_null in H0. rewrite H0. simpl. auto.
Qed.

(** C4. The r matrix is symmetric, every entry being the library's Pearson
    correlation of the rows where both variables are present (NaN when there
    is no such row, so a never-measured variable has NaN, not 1, on the
    diagonal); the p-value diagonal is exactly 0; an off-diagonal p-value is
    computed from the rows where both variables are present: the library's
    two-sided p-value when there are more than 2 of them, and exactly 1,
    without calling the library, otherwise. *)
Theorem correlation_result (filtered : DataFrame) :
  (forall i j, (i < 9)%nat -> (j < 9)%nat ->
     at2 (DataFrame_corr filtered) i j = corr_entry filtered i j /\
     at2 (DataFrame_corr filtered) i j = at2 (DataFrame_corr filtered) j i) /\
  (forall i j, (j <= i)%nat ->
     corr_entry filtered j i = corr_entry filtered i j /\
     corr_entry filtered i j =
       if (List.length (dropna2 filtered (var_at i) (var_at j)) <? 1)%nat then nan
       else pearson (dropna2 filtered (var_at i) (var_at j))) /\
  (forall i, Forall is_null (col filtered (var_at i)) -> corr_entry filtered i i = nan) /\
  (forall i, p_value_entry filtered i i = Ok 0) /\
  (forall i j, i <> j ->
     let valid_data := dropna2 filtered (var_at i) (var_at j) in
     (forall x y,
        In (x, y) valid_data <->
        exists row0, In row0 filtered /\ cell row0 (var_at i) = x /\
                     cell row0 (var_at j) = y /\ x <> nan /\ y <> nan) /\
     ((List.length valid_data <= 2)%nat -> p_value_entry filtered i j = Ok 1) /\
     ((2 < List.length valid_data)%nat ->
      p_value_entry filtered i j =
        bind (pearsonr (map fst valid_data) (map snd valid_data))
             (fun rp => ret (snd rp)))) /\
  (forall P, p_values_matrix filtered = Ok P ->
     forall i j, (i < 9)%nat -> (j < 9)%nat ->
       p_value_entry filtered i j = Ok (at2 P i j)).
Proof.
  split; [| split; [| split; [| split; [| split]]]].
  - intros i j Hi Hj. rewrite !DataFrame_corr_at by assumption.
    split; [reflexivity | apply corr_entry_sym].
  - intros i j Hij. split; [apply corr_entry_sym |].
    unfold corr_entry. apply Nat.leb_le in Hij. now rewrite Hij.
  - intros i Hn. unfold corr_entry. rewrite Nat.leb_refl.
    now rewrite (dropna2_all_null _ _ _ Hn).
  - intros i. unfold p_value_entry. now rewrite Nat.eqb_refl.
  - intros i j Hij valid_data. split; [intros x y; apply dropna2_In |].
    unfold p_value_entry. apply Nat.eqb_neq in Hij. rewrite Hij. simpl negb. cbv iota.
    fold valid_data. split; intros Hl.
    + apply Nat.ltb_ge in Hl. now rewrite Hl.
    + apply Nat.ltb_lt in Hl. rewrite Hl.
      destruct (pearsonr _ _) as [[r_val p_val]|]; reflexivity.
  - intros P E i j Hi Hj. unfold p_values_matrix, Py.range in E.
    change (List.length variables - 0)%nat with 9%nat in E.
    pose proof (for_each_seq_nth _ [] 9 0 P E i Hi) as Ei. simpl in Ei.
    apply (for_each_seq_nth _ nan 9 0 _ Ei j Hj).
Qed.

End Correlation.

(** On the sample table [pco2] (column 7) is never measured: its diagonal
    correlation is NaN, while temperature's is 1. *)
Lemma corr_diagonal_null_variable :
  var_at 7 = pco2 /\
  Forall is_null (col (filtered_data (@session Demo.library Demo.sample_csv [])) pco2) /\
  at2 (@DataFrame_corr Demo.library
         (filtered_data (@session Demo.library Demo.sample_csv []))) 7 7 = nan /\
  (nan =? 1)%float = false /\
  at2 (@DataFrame_corr Demo.library
         (filtered_data (@session Demo.library Demo.sample_csv []))) 0 0 = 1.
Proof.
  split; [reflexivity |]. split; [repeat constructor |].
  split; [vm_compute; reflexivity |]. split; [reflexivity |]. vm_compute; reflexivity.
Qed.

(** The sample table instantiates every case of the correlation result. *)
Lemma correlation_result_sample :
  @corr_entry Demo.library Demo.sample_csv 7 7 = nan /\
  @p_value_entry Demo.library Demo.sample_csv 7 7 = Ok 0 /\
  @p_value_entry Demo.library Demo.sample_csv 0 7 = Ok 1 /\
  @corr_entry Demo.library Demo.sample_csv 0 1 =
    @corr_entry Demo.library Demo.sample_csv 1 0.
Proof.
  destruct (@correlation_result Demo.library Demo.sample_csv)
    as (_ & Hsym & Hnull & Hdiag & Hoff & _).
  split; [apply Hnull; repeat constructor |].
  split; [apply Hdiag |].
  split; [apply (Hoff 0%nat 7%nat); [discriminate | simpl; lia] |].
  symmetry. apply (Hsym 1%nat 0%nat). lia.
Defined.

(** * The model at work on the sample tables *)

Example var_labels_computed :
  map var_label variables =
  ["Temperature"; "Pressure"; "Salinity"; "Chlorophyll A"; "Turbidity";
   "Ph"; "Dissolved Oxygen"; "Pco2"; "Ta"].
Proof. reflexivity. Qed.

Example threshold_r_value : threshold_r = 0x1.c9f25c5bfedd9p-1.
Proof. reflexivity. Qed.

(** The chlorophyll spike, the turbidity value above the 99th percentile
    and the low alkalinity are nulled in the clean table only. *)
Example load_data_sample :
  map (fun row0 => (cell row0 chlorophyll_a, cell row0 turbidity, cell row0 ta))
      (@load_data Demo.library Demo.sample_csv) =
    [(nan, 5, 2300); (1, 6, nan); (2, 7, 2310); (3, nan, 2320)] /\
  map (fun row0 => (cell row0 chlorophyll_a, cell row0 turbidity, cell row0 ta))
      (load_raw_data Demo.sample_csv) =
    [(250, 5, 2300); (1, 6, 1500); (2, 7, 2310); (3, 900, 2320)].
Proof. split; vm_compute; reflexivity. Qed.

(** Temperatures 1, 3 in 2024 and 5, 7 in 2025: means 2 and 6, change 200%. *)
Example compare_years_sample :
  exists c,
    @compare_years Demo.library Demo.sample_csv temperature = Ok c /\
    Mean_2024 (summary c) = 2 /\ Mean_2025 (summary c) = 6 /\
    Pct_Change (summary c) = 200.
Proof. eexists. split; [reflexivity |]. repeat split. Qed.

(** With no 2025 rows both tests are unavailable for every variable, and
    the nine comparisons are still produced. *)
Example interannual_sample :
  exists rows,
    @interannual_variability Demo.library (@session Demo.library Demo.only_2024 []) =
      Ok rows /\
    map test_text rows =
      repeat "Mann-Whitney U: N/A<br>T-test: N/A" 9 /\
    map (fun c => Mean_2024 (summary c)) rows =
      [2; 10.5; 34; 1; 5; 0x1.019999999999ap+3; 305; nan; 2300].
Proof. eexists. split; [vm_compute; reflexivity |]. split; reflexivity. Qed.

(** Equal keys keep their input order; larger keys come first. *)
Example sorted_reverse_sample :
  sorted_reverse fst [(1, "a"); (3, "b"); (1, "c"); (3, "d"); (2, "e")] =
  [(3, "b"); (3, "d"); (2, "e"); (1, "a"); (1, "c")].
Proof. reflexivity. Qed.

(** The square of [sqrt 0.8] itself rounds below 0.8, the square of the next
    float rounds above it. *)
Example threshold_r_boundary :
  Py.gt (threshold_r * threshold_r) 0.8 = false /\
  Py.gt (next_up threshold_r * next_up threshold_r) 0.8 = true.
Proof. split; reflexivity. Qed.

(** * Further properties of the loader and the range selector *)

Section LoaderMore.
Context `{StatsLibrary}.

Lemma scrub_row_cell thr raw c :
  cell (scrub_row thr raw) c = cell raw c \/ is_null (cell (scrub_row thr raw) c).
Proof.
  unfold is_null.
  destruct c;
    try (left; apply scrub_row_other; discriminate).
  - rewrite scrub_row_chlorophyll. destruct (Py.gt _ _); auto.
  - rewrite scrub_row_turbidity. destruct (Py.gt _ _); auto.
  - rewrite scrub_row_ta. destruct (Py.lt _ _); auto.
Qed.

Lemma session_filtered_scrub csv date_range :
  filtered_data (session csv date_range) =
  map (scrub_row (quantile (col csv turbidity) 0.99)) (filter_by_date csv date_range).
Proof.
  unfold session. simpl. rewrite load_data_scrub.
  apply filter_by_date_map, scrub_row_datetime.
Qed.

(** X1. The clean load never drops, adds or reorders rows and never invents
    a value: every clean cell is the raw cell or null, the six columns
    without an outlier rule are copied unchanged, and a null raw cell stays
    null. *)
Theorem load_data_only_nulls (csv : DataFrame) :
  List.length (load_data csv) = List.length csv /\
  map datetime (load_data csv) = map datetime csv /\
  Forall2 (fun raw clean =>
             (forall c, cell clean c = cell raw c \/ is_null (cell clean c)) /\
             (forall c, c <> chlorophyll_a -> c <> turbidity -> c <> ta ->
                        cell clean c = cell raw c) /\
             (forall c, is_null (cell raw c) -> is_null (cell clean c)))
          csv (load_data csv).
Proof.
  rewrite load_data_scrub. set (thr := quantile (col csv turbidity) 0.99).
  split; [apply length_map |]. split.
  - rewrite map_map. apply map_ext. intros raw. apply scrub_row_datetime.
  - apply Forall2_map_r. intros raw _. split; [| split].
    + intros c. apply scrub_row_cell.
    + intros c. apply scrub_row_other.
    + intros c Hn. destruct (scrub_row_cell thr raw c) as [E | E]; [| exact E].
      unfold is_null in *. congruence.
Qed.

Lemma notna_sum_dropna s : notna_sum s = List.length (dropna s).
Proof.
  unfold notna_sum, dropna. induction s as [|v s IH]; [reflexivity |].
  simpl. destruct (negb (Py.isnan v)); simpl; now rewrite IH.
Qed.

Lemma dropna_length_le s : (List.length (dropna s) <= List.length s)%nat.
Proof. apply filter_length_le. Qed.

Lemma dropna_scrub_le thr df c :
  (List.length (dropna (col (map (scrub_row thr) df) c)) <=
   List.length (dropna (col df c)))%nat.
Proof.
  unfold col, dropna. rewrite map_map.
  induction df as [|raw df IH]; simpl; [lia |].
  destruct (scrub_row_cell thr raw c) as [E | E].
  - rewrite E. destruct (negb (Py.isnan (cell raw c))); simpl; lia.
  - unfold is_null in E. rewrite E. simpl.
    destruct (negb (Py.isnan (cell raw c))); simpl; lia.
Qed.

(** X2. The completeness count of a variable (the pie chart) is the number
    of its non-null cells in the filtered clean table; it never exceeds the
    number of non-null raw values the outlier analysis works on, which
    never exceeds the number of selected rows, and for the six variables
    without an outlier rule the two numbers are equal. *)
Theorem completeness_counts (csv : DataFrame) (date_range : list date) :
  let s := session csv date_range in
  var_counts (filtered_data s) =
    map (fun var => List.length (dropna (col (filtered_data s) var))) variables /\
  List.length (filtered_data s) = List.length (filtered_raw_data s) /\
  forall var,
    (notna_sum (col (filtered_data s) var) <=
     List.length (dropna (col (filtered_raw_data s) var)))%nat /\
    (List.length (dropna (col (filtered_raw_data s) var)) <=
     List.length (filtered_raw_data s))%nat /\
    (var <> chlorophyll_a -> var <> turbidity -> var <> ta ->
     notna_sum (col (filtered_data s) var) =
     List.length (dropna (col (filtered_raw_data s) var))).
Proof.
  intros s. split; [| split].
  - unfold var_counts. apply map_ext. intros var. apply notna_sum_dropna.
  - unfold s. rewrite session_filtered_scrub. apply length_map.
  - intros var. rewrite notna_sum_dropna. unfold s.
    rewrite session_filtered_scrub. unfold session, load_raw_data; simpl.
    split; [apply dropna_scrub_le |]. split.
    + unfold col. rewrite <- (length_map (fun r0 => cell r0 var)).
      apply dropna_length_le.
    + intros N1 N2 N3. f_equal. f_equal. unfold col. rewrite map_map.
      apply map_ext. intros raw. now apply scrub_row_other.
Qed.

End LoaderMore.

Section RangeSelectorMore.
Local Open Scope Z_scope.

Lemma date_le_trans a b c : date_le a b -> date_le b c -> date_le a c.
Proof.
  destruct a as [ya ma da], b as [yb mb db], c as [yc mc dc].
  unfold date_le; simpl. lia.
Qed.

Lemma date_le_total a b : date_le a b \/ date_le b a.
Proof.
  destruct a as [ya ma da], b as [yb mb db]. unfold date_le; simpl. lia.
Qed.

Lemma filter_filter_implies {X} (f g : X -> bool) l :
  (forall a, f a = true -> g a = true) -> filter f (filter g l) = filter f l.
Proof.
  intros Hfg. induction l as [|a l IH]; simpl; [reflexivity |].
  destruct (g a) eqn:Eg; simpl.
  - now rewrite IH.
  - destruct (f a) eqn:Ef; [| exact IH]. apply Hfg in Ef. congruence.
Qed.

Lemma filter_none {X} (f : X -> bool) l :
  (forall a, In a l -> f a = false) -> filter f l = [].
Proof.
  induction l as [|a l IH]; simpl; intros Hf; [reflexivity |].
  rewrite (Hf a) by auto. apply IH. auto.
Qed.

(** X3. A date range whose end precedes its start selects nothing; a
    selection never has more rows than the table; selecting a range inside
    an earlier, wider selection gives the same rows as selecting it from the
    whole table; selecting twice with the same range changes nothing. *)
Theorem range_selector_composition (df : DataFrame) :
  (forall d0 d1, date_lt d1 d0 -> filter_by_date df [d0; d1] = []) /\
  (forall date_range,
      (List.length (filter_by_date df date_range) <= List.length df)%nat) /\
  (forall a0 a1 b0 b1,
      date_le a0 b0 -> date_le b1 a1 ->
      filter_by_date (filter_by_date df [a0; a1]) [b0; b1] =
      filter_by_date df [b0; b1]) /\
  (forall date_range,
      filter_by_date (filter_by_date df date_range) date_range =
      filter_by_date df date_range).
Proof.
  split; [| split; [| split]].
  - intros d0 d1 Hlt. simpl. apply filter_none. intros row0 _.
    destruct (in_date_range d0 d1 row0) eqn:E; [| reflexivity].
    apply in_date_range_spec in E as [E0 E1]. destruct Hlt.
    eapply date_le_trans; eassumption.
  - intros [|d0 [|d1 [|d2 l]]]; simpl; try lia. apply filter_length_le.
  - intros a0 a1 b0 b1 H0 H1. simpl. apply filter_filter_implies.
    intros row0 E. apply in_date_range_spec in E as [E0 E1].
    apply in_date_range_spec. split; eapply date_le_trans; eassumption.
  - intros [|d0 [|d1 [|d2 l]]]; simpl; try reflexivity.
    now apply filter_filter_implies.
Qed.

(** On the sample table: an inverted range is empty, and narrowing the full
    range to the two middle days keeps two rows. *)
Lemma range_selector_composition_sample :
  filter_by_date Demo.sample_csv [mk_date 2025 1 1; mk_date 2024 1 2] = [] /\
  List.length
    (filter_by_date
       (filter_by_date Demo.sample_csv [mk_date 2024 1 1; mk_date 2025 1 2])
       [mk_date 2024 1 2; mk_date 2025 1 1]) = 2%nat.
Proof.
  destruct (range_selector_composition Demo.sample_csv) as (Hinv & _ & Hnarrow & _).
  split.
  - apply Hinv. unfold date_lt, date_le; simpl. lia.
  - rewrite Hnarrow; [reflexivity | |]; unfold date_le; simpl; lia.
Defined.

Lemma ts_min_none l : ts_min l = None <-> l = [].
Proof.
  split; [| now intros ->].
  destruct l as [|t l]; [reflexivity |]. simpl. destruct (ts_min l); discriminate.
Qed.

Lemma ts_max_none l : ts_max l = None <-> l = [].
Proof.
  split; [| now intros ->].
  destruct l as [|t l]; [reflexivity |]. simpl. destruct (ts_max l); discriminate.
Qed.

Lemma ts_min_In l lo : ts_min l = Some lo -> In lo l.
Proof.
  revert lo. induction l as [|t l IH]; intros lo E; [discriminate |].
  simpl in E. destruct (ts_min l) as [m|].
  - destruct (ts_leb t m); inversion E; subst; [now left | right; now apply IH].
  - inversion E. now left.
Qed.

Lemma date_le_year a b : date_le a b -> d_year a <= d_year b.
Proof. destruct a, b. unfold date_le; simpl. lia. Qed.

(** X4. On a non-empty table the date picker's default range and the
    "Temporal Coverage" years are ordered (start before or equal to end) and
    enclose every row; both are undefined exactly when the table is empty. *)
Theorem coverage_encloses_rows (df : DataFrame) :
  (full_date_range df = None <-> df = []) /\
  (temporal_coverage df = None <-> df = []) /\
  (forall d0 d1,
      full_date_range df = Some [d0; d1] ->
      date_le d0 d1 /\
      Forall (fun row0 => date_le d0 (ts_date (datetime row0)) /\
                          date_le (ts_date (datetime row0)) d1) df) /\
  (forall start_year end_year,
      temporal_coverage df = Some (start_year, end_year) ->
      start_year <= end_year /\
      Forall (fun row0 => start_year <= d_year (ts_date (datetime row0)) <= end_year)
             df).
Proof.
  unfold full_date_range, temporal_coverage.
  destruct (ts_min (map datetime df)) as [lo|] eqn:Elo.
  - destruct (ts_max (map datetime df)) as [hi|] eqn:Ehi.
    + pose proof (ts_min_le _ _ Elo) as Hlo. pose proof (ts_max_ge _ _ Ehi) as Hhi.
      rewrite Forall_map in Hlo, Hhi.
      assert (Hne : df <> []) by (intros ->; discriminate).
      assert (Hrows : Forall (fun row0 => date_le (ts_date lo) (ts_date (datetime row0)) /\
                                         date_le (ts_date (datetime row0)) (ts_date hi)) df).
      { rewrite Forall_forall in *. intros row0 Hr.
        split; apply ts_le_date; auto. }
      assert (Hord : date_le (ts_date lo) (ts_date hi)).
      { apply ts_min_In, in_map_iff in Elo as [row0 [E Hr]].
        rewrite Forall_forall in Hhi. rewrite <- E. apply ts_le_date, Hhi, Hr. }
      split; [split; [discriminate | contradiction] |].
      split; [split; [discriminate | contradiction] |].
      split.
      * intros d0 d1 E. inversion E; subst. auto.
      * intros a b E. inversion E; subst. split; [now apply date_le_year |].
        eapply Forall_impl; [| exact Hrows]. intros row0 [H0 H1].
        split; now apply date_le_year.
    + apply ts_max_none in Ehi. apply map_eq_nil in Ehi. subst. discriminate.
  - apply ts_min_none, map_eq_nil in Elo. subst. simpl.
    repeat split; try discriminate; auto.
Qed.

(** On the sample table the default range is 2024-01-01 to 2025-01-02 and
    the coverage is 2024-2025. *)
Lemma coverage_sample :
  date_le (mk_date 2024 1 1) (mk_date 2025 1 2) /\
  temporal_coverage Demo.sample_csv = Some (2024, 2025) /\
  2024 <= 2025.
Proof.
  destruct (coverage_encloses_rows Demo.sample_csv) as (_ & _ & Hd & Hy).
  split; [apply (Hd _ _ eq_refl) |]. split; [reflexivity |].
  apply (Hy 2024 2025 eq_refl).
Defined.

End RangeSelectorMore.

(** * The January-February comparison *)

Section JanFeb.
Local Open Scope Z_scope.

Lemma strftime_2024_mono t1 t2 :
  d_year (ts_date t1) = d_year (ts_date t2) ->
  ts_le t1 t2 -> ts_le (strftime_2024 t1) (strftime_2024 t2).
Proof.
  destruct t1 as [[y1 m1 d1] s1], t2 as [[y2 m2 d2] s2].
  unfold ts_le, date_le, strftime_2024; simpl. intros Ey [Hd Ht].
  split; [lia |]. intros Hback.
  assert (Hs : s1 <= s2) by (apply Ht; lia).
  apply Z.mul_le_mono_nonneg_r; [lia |]. apply Z.div_le_mono; lia.
Qed.

(** X5. In the 2024-versus-2025 plots both x axes lie in January or
    February of 2024: a 2025 timestamp keeps its month and day, loses less
    than one second, and the 2025 rows stay in chronological order after the
    shift; a row is plotted in at most one of the two years. *)
Theorem jan_feb_superposition (data : DataFrame) :
  Forall (fun t => d_year (ts_date t) = 2024 /\
                   (d_month (ts_date t) = 1 \/ d_month (ts_date t) = 2))
         (x_axis_2024 data ++ x_axis_2025 data) /\
  (forall t, d_month (ts_date (strftime_2024 t)) = d_month (ts_date t) /\
             d_day (ts_date (strftime_2024 t)) = d_day (ts_date t) /\
             0 <= ts_time t - ts_time (strftime_2024 t) < 1000000000) /\
  (forall row1 row2,
      In row1 (rows_of_year (data_jan_feb data) 2025) ->
      In row2 (rows_of_year (data_jan_feb data) 2025) ->
      ts_le (datetime row1) (datetime row2) ->
      ts_le (strftime_2024 (datetime row1)) (strftime_2024 (datetime row2))) /\
  (forall row0,
      In row0 (rows_of_year (data_jan_feb data) 2024) ->
      ~ In row0 (rows_of_year (data_jan_feb data) 2025)).
Proof.
  split; [| split; [| split]].
  - apply Forall_app. unfold x_axis_2024, x_axis_2025, rows_of_year, data_jan_feb.
    split; apply Forall_forall; intros t Ht; apply in_map_iff in Ht as [row0 [<- Hr]];
      apply filter_In in Hr as [Hr Ey]; apply filter_In in Hr as [_ Em];
      apply Z.eqb_eq in Ey; apply orb_true_iff in Em;
      rewrite !Z.eqb_eq in Em; simpl; auto.
  - intros [[y m d] s]. unfold strftime_2024; simpl.
    repeat split; try reflexivity;
      pose proof (Z.mod_pos_bound s 1000000000 ltac:(lia));
      pose proof (Z.div_mod s 1000000000 ltac:(lia)); lia.
  - unfold rows_of_year. intros row1 row2 H1 H2.
    apply filter_In in H1 as [_ E1]. apply filter_In in H2 as [_ E2].
    apply Z.eqb_eq in E1, E2. apply strftime_2024_mono. congruence.
  - unfold rows_of_year. intros row0 H1 H2.
    apply filter_In in H1 as [_ E1]. apply filter_In in H2 as [_ E2].
    apply Z.eqb_eq in E1, E2. lia.
Qed.

End JanFeb.

(** * The significance heat map and the regression lines *)

Section StatisticsMore.
Context `{StatsLibrary}.

Lemma significance_matrix_at P i j :
  (i < 9)%nat -> (j < 9)%nat ->
  at2 (significance_matrix P) i j = significance_entry P i j.
Proof.
  intros Hi Hj.
  do 9 (destruct i as [|i];
        [do 9 (destruct j as [|j]; [reflexivity |]); lia |]).
  lia.
Qed.

Lemma best_pairs_In corr_matrix p_values e :
  In e (best_pairs corr_matrix p_values) ->
  exists i j, (i < j < 9)%nat /\ e = pair_entry corr_matrix p_values (i, j) /\
              qualifies corr_matrix p_values (i, j) = true.
Proof.
  unfold best_pairs. intros He. apply In_firstn in He.
  apply (Permutation_in _ (sorted_reverse_perm r2 _)) in He.
  rewrite best_pairs_found_select in He.
  apply in_map_iff in He as [[i j] [<- Hij]]. apply filter_In in Hij as [Ht Hq].
  exists i, j. split; [now apply upper_triangle_In | auto].
Qed.

(** X6. The significance heat map is NaN on the diagonal and 0 or 1
    elsewhere: 1 exactly when the p-value is below 0.05, so a NaN p-value
    reads as 0; every best-fit pair that is displayed sits on a cell marked
    1. *)
Theorem significance_matrix_marks (p_values : matrix) :
  (forall i j, (i < 9)%nat -> (j < 9)%nat ->
     at2 (significance_matrix p_values) i j = significance_entry p_values i j) /\
  (forall i, (i < 9)%nat -> at2 (significance_matrix p_values) i i = nan) /\
  (forall i j, (i < 9)%nat -> (j < 9)%nat -> i <> j ->
     (at2 (significance_matrix p_values) i j = 1 \/
      at2 (significance_matrix p_values) i j = 0) /\
     (at2 (significance_matrix p_values) i j = 1 <->
      Py.lt (at2 p_values i j) 0.05 = true) /\
     (is_null (at2 p_values i j) -> at2 (significance_matrix p_values) i j = 0)) /\
  (forall corr_matrix e,
     In e (best_pairs corr_matrix p_values) ->
     exists i j, (i < j < 9)%nat /\ var1 e = var_at i /\ var2 e = var_at j /\
                 at2 (significance_matrix p_values) i j = 1).
Proof.
  split; [apply significance_matrix_at |]. split; [| split].
  - intros i Hi. rewrite significance_matrix_at by assumption.
    unfold significance_entry. now rewrite Nat.eqb_refl.
  - intros i j Hi Hj Hij. rewrite significance_matrix_at by assumption.
    unfold significance_entry. apply Nat.eqb_neq in Hij. rewrite Hij.
    destruct (Py.lt (at2 p_values i j) 0.05) eqn:E.
    + split; [now left |]. split; [tauto |].
      unfold is_null. intros N. rewrite N in E. discriminate.
    + split; [now right |]. split; [| reflexivity].
      split; [| discriminate]. intros E1.
      apply (f_equal (fun x => (x =? 1)%float)) in E1. discriminate.
  - intros corr_matrix e He.
    apply best_pairs_In in He as (i & j & Hij & -> & Hq).
    exists i, j. split; [exact Hij |]. split; [reflexivity |].
    split; [reflexivity |]. rewrite significance_matrix_at by lia.
    unfold significance_entry. replace (i =? j)%nat with false
      by (symmetry; apply Nat.eqb_neq; lia).
    unfold qualifies in Hq. apply andb_true_iff in Hq as [_ Hp]. simpl in Hp.
    now rewrite Hp.
Qed.

Lemma for_each_Forall2 {X Y} (f : X -> exc Y) l :
  forall bs, for_each f l = Ok bs -> Forall2 (fun a b => f a = Ok b) l bs.
Proof.
  induction l as [|a l IH]; simpl; intros bs E.
  - inversion E. constructor.
  - destruct (f a) as [b|] eqn:Ea; [| discriminate]. simpl in E.
    destruct (for_each f l) as [bs'|]; [| discriminate]. simpl in E.
    inversion E; subst. constructor; auto.
Qed.

Lemma p_values_matrix_entry filtered P i j :
  p_values_matrix filtered = Ok P -> (i < 9)%nat -> (j < 9)%nat ->
  p_value_entry filtered i j = Ok (at2 P i j).
Proof.
  intros E Hi Hj. unfold p_values_matrix, Py.range in E.
  change (List.length variables - 0)%nat with 9%nat in E.
  pose proof (for_each_seq_nth _ [] 9 0 P E i Hi) as Ei. simpl in Ei.
  apply (for_each_seq_nth _ nan 9 0 _ Ei j Hj).
Qed.

Lemma p_value_entry_few_rows filtered i j :
  i <> j ->
  (List.length (dropna2 filtered (var_at i) (var_at j)) <= 2)%nat ->
  p_value_entry filtered i j = Ok 1.
Proof.
  intros Hij Hl. unfold p_value_entry. apply Nat.eqb_neq in Hij. rewrite Hij. simpl.
  apply Nat.ltb_ge in Hl. now rewrite Hl.
Qed.

(** X7. Every best-fit pair the Statistical Analysis section displays was
    computed from at least three rows where both variables are present, so
    the guard of its regression line always holds. *)
Theorem best_pairs_have_three_rows (s : Session) (st : statistics) :
  statistical_analysis s = Ok st ->
  Forall (fun pair =>
            (2 < List.length (pair_valid_data (filtered_data s) pair))%nat /\
            regression_fitted (filtered_data s) pair = true)
         (best st).
Proof.
  unfold statistical_analysis. intros E.
  destruct (p_values_matrix (filtered_data s)) as [P|] eqn:EP; [| discriminate].
  simpl in E. inversion E; subst; clear E. simpl.
  apply Forall_forall. intros pair Hp.
  apply best_pairs_In in Hp as (i & j & Hij & -> & Hq).
  unfold pair_valid_data, regression_fitted, pair_valid_data. simpl.
  assert (Hl : (2 < List.length (dropna2 (filtered_data s) (var_at i) (var_at j)))%nat).
  { destruct (Nat.le_gt_cases
                (List.length (dropna2 (filtered_data s) (var_at i) (var_at j))) 2)
      as [Hle | Hgt]; [| exact Hgt].
    pose proof (p_value_entry_few_rows (filtered_data s) i j ltac:(lia) Hle) as E1.
    rewrite (p_values_matrix_entry _ P i j EP) in E1 by lia.
    inversion E1 as [E2]. unfold qualifies in Hq.
    apply andb_true_iff in Hq as [_ Hlt]. simpl in Hlt. rewrite E2 in Hlt.
    discriminate. }
  split; [exact Hl |]. apply Nat.ltb_lt. lia.
Qed.

Lemma p_value_entry_defined filtered i j :
  (forall x y, List.length x = List.length y -> (2 < List.length x)%nat ->
               exists rp, pearsonr x y = Ok rp) ->
  exists pv, p_value_entry filtered i j = Ok pv.
Proof.
  intros Hlib. unfold p_value_entry.
  destruct (negb (i =? j)%nat); [| eexists; reflexivity].
  destruct (2 <? List.length (dropna2 filtered (var_at i) (var_at j)))%nat eqn:El;
    [| eexists; reflexivity].
  apply Nat.ltb_lt in El.
  destruct (Hlib (map fst (dropna2 filtered (var_at i) (var_at j)))
                 (map snd (dropna2 filtered (var_at i) (var_at j))))
    as [[r_val p_val] E].
  - now rewrite !length_map.
  - now rewrite length_map.
  - rewrite E. eexists. reflexivity.
Qed.

(** X8. The p-value loop calls the library test only on two samples of
    equal length with at least three observations: if the test succeeds on
    all such inputs, the 9 x 9 p-value matrix and the whole Statistical
    Analysis computation are produced for every table. *)
Theorem p_values_matrix_defined (s : Session) :
  (forall x y, List.length x = List.length y -> (2 < List.length x)%nat ->
               exists rp, pearsonr x y = Ok rp) ->
  exists P,
    p_values_matrix (filtered_data s) = Ok P /\
    List.length P = 9%nat /\
    Forall (fun row0 => List.length row0 = 9%nat) P /\
    exists st, statistical_analysis s = Ok st /\ p_values st = P.
Proof.
  intros Hlib. unfold statistical_analysis, p_values_matrix.
  edestruct (for_each_total
               (fun i => for_each (fun j => p_value_entry (filtered_data s) i j)
                                  (Py.range 0 (List.length variables)))
               (fun _ row0 => List.length row0 = 9%nat)
               (Py.range 0 (List.length variables))) as [P [E HP]].
  - intros i.
    edestruct (for_each_total (fun j => p_value_entry (filtered_data s) i j)
                 (fun _ _ => True) (Py.range 0 (List.length variables)))
      as [row0 [Er Hr]].
    + intros j. destruct (p_value_entry_defined (filtered_data s) i j Hlib) as [pv E].
      exists pv. auto.
    + exists row0. split; [exact Er |].
      apply Forall2_length in Hr. rewrite <- Hr. reflexivity.
  - exists P. split; [exact E |]. split; [| split].
    + apply Forall2_length in HP. rewrite <- HP. reflexivity.
    + clear E. induction HP; constructor; auto.
    + rewrite E. simpl. eexists. split; reflexivity.
Qed.

End StatisticsMore.

(** The demo library's test raises only below two observations; the sample
    table then yields its p-value matrix. *)
Lemma p_values_matrix_sample :
  exists P,
    @p_values_matrix Demo.library
      (filtered_data (@session Demo.library Demo.sample_csv [])) = Ok P /\
    List.length P = 9%nat /\
    Forall (fun row0 => List.length row0 = 9%nat) P /\
    exists st, @statistical_analysis Demo.library
                 (@session Demo.library Demo.sample_csv []) = Ok st /\
               p_values st = P.
Proof.
  apply (@p_values_matrix_defined Demo.library).
  intros x y _ Hl. simpl. unfold Demo.pearsonr.
  replace (List.length x <? 2)%nat with false
    by (symmetry; apply Nat.ltb_ge; lia).
  eexists. reflexivity.
Defined.

(** On the sample table temperature and pressure form a best-fit pair, drawn
    from four complete rows. *)
Lemma best_pairs_sample :
  exists st,
    @statistical_analysis Demo.library (@session Demo.library Demo.sample_csv []) = Ok st /\
    (exists pair, In pair (best st) /\ var1 pair = temperature /\ var2 pair = pressure) /\
    Forall (fun pair =>
              (2 < List.length
                     (pair_valid_data
                        (filtered_data (@session Demo.library Demo.sample_csv [])) pair))%nat /\
              regression_fitted
                (filtered_data (@session Demo.library Demo.sample_csv [])) pair = true)
           (best st).
Proof.
  destruct (@statistical_analysis Demo.library (@session Demo.library Demo.sample_csv []))
    as [st|err] eqn:E; [| vm_compute in E; discriminate].
  exists st. split; [reflexivity |]. split.
  - vm_compute in E. inversion E; subst; clear E. simpl.
    eexists. split; [left; reflexivity | split; reflexivity].
  - apply (@best_pairs_have_three_rows Demo.library _ _ E).
Defined.

(** * Distinctness of the displayed best-fit pairs *)

Lemma column_index_var_at i : (i < 9)%nat -> column_index (var_at i) = i.
Proof.
  intros Hi. do 9 (destruct i as [|i]; [reflexivity |]). lia.
Qed.

Lemma NoDup_firstn {X} n (l : list X) : NoDup l -> NoDup (firstn n l).
Proof.
  revert l. induction n as [|n IH]; intros l Hl; simpl; [constructor |].
  destruct l as [|a l]; [constructor |]. inversion Hl; subst.
  constructor; [| auto]. intros Hin. apply In_firstn in Hin. contradiction.
Qed.

(** X9. The displayed best-fit pairs never repeat a pair of variables and
    never pair a variable with itself or list a pair in both orders: in
    every entry the first variable comes strictly before the second in the
    variable list, and no two entries have the same two variables. *)
Theorem best_pairs_distinct (corr_matrix p_values : matrix) :
  Forall (fun e => (column_index (var1 e) < column_index (var2 e))%nat /\
                   var1 e <> var2 e)
         (best_pairs corr_matrix p_values) /\
  NoDup (map (fun e => (var1 e, var2 e)) (best_pairs corr_matrix p_values)) /\
  (forall e1 e2,
      In e1 (best_pairs corr_matrix p_values) ->
      In e2 (best_pairs corr_matrix p_values) ->
      ~ (var1 e1 = var2 e2 /\ var2 e1 = var1 e2)).
Proof.
  assert (Hord : forall e, In e (best_pairs corr_matrix p_values) ->
                           (column_index (var1 e) < column_index (var2 e))%nat).
  { intros e He. apply best_pairs_In in He as (i & j & Hij & -> & _). simpl.
    rewrite !column_index_var_at by lia. lia. }
  split; [| split].
  - apply Forall_forall. intros e He. specialize (Hord e He).
    split; [exact Hord |]. intros E. rewrite E in Hord. lia.
  - unfold best_pairs. rewrite <- firstn_map. apply NoDup_firstn.
    apply (Permutation_NoDup
             (Permutation_sym
                (Permutation_map _ (sorted_reverse_perm r2 _)))).
    rewrite best_pairs_found_select, map_map.
    apply NoDup_map_NoDup_ForallPairs;
      [| apply NoDup_filter, upper_triangle_NoDup].
    intros [i j] [i' j'] Hin Hin' E.
    apply filter_In in Hin as [Hin _]. apply filter_In in Hin' as [Hin' _].
    apply upper_triangle_In in Hin, Hin'. simpl in E. inversion E as [[E1 E2]].
    apply (f_equal column_index) in E1, E2.
    rewrite !column_index_var_at in E1, E2 by lia. now subst.
  - intros e1 e2 H1 H2 [E1 E2]. apply Hord in H1, H2.
    rewrite E1, E2 in H1. lia.
Qed.

(** * Further properties of the interannual comparison *)

Section InterannualMore.
Context `{StatsLibrary}.

Lemma lt_implies_not_nan v bound : Py.lt v bound = true -> Py.isnan v = false.
Proof. intros E. apply (F64.ltb_not_nan _ _ E). Qed.

Lemma significant_changes_filter rows :
  significant_changes rows = filter (fun row0 => Py.lt (P_Value row0) 0.05) rows.
Proof.
  unfold significant_changes. apply filter_ext. intros row0.
  destruct (Py.lt (P_Value row0) 0.05) eqn:E; [| reflexivity].
  now rewrite (lt_implies_not_nan _ _ E).
Qed.

Lemma compare_years_significance data var c :
  compare_years data var = Ok c ->
  Significance (summary c) =
    if Py.lt (P_Value (summary c)) 0.05 then "Significant" else "Not Significant".
Proof.
  rewrite compare_years_result. intros E. inversion E. reflexivity.
Qed.

(** X10. The list of significant changes is exactly the rows of the summary
    table labelled "Significant", in table order; the NaN test in its
    filter never changes the result; and the "no significant changes"
    message is shown exactly when every row reads "Not Significant". *)
Theorem significant_changes_match_labels (s : Session) (comparisons : list comparison) :
  interannual_variability s = Ok comparisons ->
  significant_changes (summary_data comparisons) =
    filter (fun row0 => String.eqb (Significance row0) "Significant")
           (summary_data comparisons) /\
  (forall rows,
      significant_changes rows =
      filter (fun row0 => Py.lt (P_Value row0) 0.05) rows) /\
  (significant_changes_list (summary_data comparisons) = None <->
   Forall (fun row0 => Significance row0 = "Not Significant")
          (summary_data comparisons)).
Proof.
  unfold interannual_variability. intros E.
  apply for_each_Forall2 in E.
  assert (Hsig : Forall (fun row0 =>
            Significance row0 =
              if Py.lt (P_Value row0) 0.05 then "Significant" else "Not Significant")
            (summary_data comparisons)).
  { unfold summary_data. apply Forall_map.
    induction E as [|var c vars cs Hc _ IH]; constructor; [| exact IH].
    now apply compare_years_significance in Hc. }
  assert (Heq : significant_changes (summary_data comparisons) =
                filter (fun row0 => String.eqb (Significance row0) "Significant")
                       (summary_data comparisons)).
  { rewrite significant_changes_filter. apply filter_ext_in. intros row0 Hr.
    rewrite Forall_forall in Hsig. rewrite (Hsig row0 Hr).
    now destruct (Py.lt (P_Value row0) 0.05). }
  split; [exact Heq |]. split; [apply significant_changes_filter |].
  unfold significant_changes_list. rewrite Heq.
  set (rows := summary_data comparisons) in *. clearbody rows. clear Heq E.
  induction Hsig as [|row0 rows Hr _ IH]; simpl.
  - split; [constructor | reflexivity].
  - rewrite Hr. destruct (Py.lt (P_Value row0) 0.05); simpl.
    + split; [discriminate |]. intros Hf. inversion Hf as [|? ? Hbad]. congruence.
    + destruct (filter _ rows) eqn:Ef.
      * split; [| reflexivity]. intros _. constructor; [exact Hr |]. now apply IH.
      * split; [discriminate |]. intros Hf. inversion Hf; subst.
        apply IH. assumption.
Qed.

Lemma filter_year_two y data :
  (y = 2024 \/ y = 2025)%Z ->
  filter (fun row0 => (d_year (ts_date (datetime row0)) =? y)%Z)
    (filter (fun row0 => ((d_year (ts_date (datetime row0)) =? 2024) ||
                          (d_year (ts_date (datetime row0)) =? 2025))%Z) data) =
  filter (fun row0 => (d_year (ts_date (datetime row0)) =? y)%Z) data.
Proof.
  intros Hy. apply filter_filter_implies. intros row0 E.
  apply Z.eqb_eq in E. rewrite E. destruct Hy; subst; reflexivity.
Qed.

(** X11. Rows dated outside 2024 and 2025 have no influence on the
    comparison: removing them from the table leaves every comparison record
    unchanged, and the two samples of a variable together never hold more
    values than the variable has non-null cells. *)
Theorem comparison_uses_two_years (data : DataFrame) (var : column) :
  let two_years :=
    filter (fun row0 => ((d_year (ts_date (datetime row0)) =? 2024) ||
                         (d_year (ts_date (datetime row0)) =? 2025))%Z) data in
  year_values two_years 2024 var = year_values data 2024 var /\
  year_values two_years 2025 var = year_values data 2025 var /\
  compare_years two_years var = compare_years data var /\
  (List.length (year_values data 2024 var) +
   List.length (year_values data 2025 var) <=
   List.length (dropna (col data var)))%nat.
Proof.
  intros two_years.
  assert (E24 : year_values two_years 2024 var = year_values data 2024 var)
    by (unfold year_values, two_years; rewrite filter_year_two; auto).
  assert (E25 : year_values two_years 2025 var = year_values data 2025 var)
    by (unfold year_values, two_years; rewrite filter_year_two; auto).
  split; [exact E24 |]. split; [exact E25 |]. split.
  - unfold compare_years. cbv zeta. now rewrite E24, E25.
  - clear. unfold year_values, dropna, col.
    induction data as [|row0 data IH]; simpl; [lia |].
    destruct (d_year (ts_date (datetime row0)) =? 2024)%Z eqn:E1;
      destruct (d_year (ts_date (datetime row0)) =? 2025)%Z eqn:E2;
      simpl; destruct (negb (Py.isnan (cell row0 var))); simpl; lia.
Qed.

End InterannualMore.

(** On the sample table no variable changes significantly under the demo
    library, so the message replaces the list. *)
Lemma significant_changes_sample :
  exists comparisons,
    @interannual_variability Demo.library
      (@session Demo.library Demo.sample_csv []) = Ok comparisons /\
    significant_changes (summary_data comparisons) =
      filter (fun row0 => String.eqb (Significance row0) "Significant")
             (summary_data comparisons) /\
    significant_changes_list (summary_data comparisons) = None.
Proof.
  destruct (@interannual_variability Demo.library
              (@session Demo.library Demo.sample_csv [])) as [cs|err] eqn:E;
    [| vm_compute in E; discriminate].
  exists cs. split; [reflexivity |].
  destruct (@significant_changes_match_labels Demo.library _ _ E) as (H1 & _ & _).
  split; [exact H1 |].
  vm_compute in E. inversion E; subst. reflexivity.
Defined.

(** * More facts about binary64 arithmetic *)

Module F64More.
Local Open Scope float_scope.

Lemma eqb_leb a b : (a =? b) = true -> (a <=? b) = true /\ (b <=? a) = true.
Proof.
  rewrite eqb_spec, !leb_spec. unfold SFeqb, SFleb.
  rewrite (F64.SFcompare_swap (Prim2SF a) (Prim2SF b)).
  destruct (SFcompare (Prim2SF a) (Prim2SF b)) as [[| |]|]; try discriminate.
  split; reflexivity.
Qed.

Lemma sub_nan_l x : nan - x = nan.
Proof.
  apply Prim2SF_inj. rewrite sub_spec, F64.Prim2SF_nan. reflexivity.
Qed.

Lemma sub_nan_r x : x - nan = nan.
Proof.
  apply Prim2SF_inj. rewrite sub_spec, F64.Prim2SF_nan.
  unfold SF64sub, SFsub. now destruct (Prim2SF x).
Qed.

Lemma add_nan_l x : nan + x = nan.
Proof.
  apply Prim2SF_inj. rewrite add_spec, F64.Prim2SF_nan. reflexivity.
Qed.

Lemma add_nan_r x : x + nan = nan.
Proof.
  apply Prim2SF_inj. rewrite add_spec, F64.Prim2SF_nan.
  unfold SF64add, SFadd. now destruct (Prim2SF x).
Qed.

Lemma mul_nan_r x : x * nan = nan.
Proof.
  apply Prim2SF_inj. rewrite mul_spec, F64.Prim2SF_nan.
  unfold SF64mul, SFmul. now destruct (Prim2SF x).
Qed.

Lemma ltb_nan_r x : (x <? nan) = false.
Proof.
  rewrite ltb_spec, F64.Prim2SF_nan. unfold SFltb, SFcompare.
  now destruct (Prim2SF x).
Qed.

Lemma ltb_nan_l x : (nan <? x) = false.
Proof. rewrite ltb_spec, F64.Prim2SF_nan. reflexivity. Qed.

(** [x - x] is [+0] for a finite [x]. *)
Lemma sub_self_finite x s m e :
  Prim2SF x = S754_finite s m e -> Prim2SF (x - x) = S754_zero false.
Proof.
  intros E. rewrite sub_spec, E. unfold SF64sub, SFsub. cbv zeta.
  now rewrite Z.sub_diag.
Qed.

(** The percent-change expression of two equal values is never positive. *)
Lemma zero_change_not_positive x :
  (x =? 0) = false -> (0 <? ((x - x) / x) * 100) = false.
Proof.
  intros Ex. rewrite ltb_spec, mul_spec, div_spec. rewrite eqb_spec in Ex.
  remember (Prim2SF 100) as hundred eqn:Eh. vm_compute in Eh.
  remember (Prim2SF 0) as zero eqn:Ez. vm_compute in Ez.
  destruct (Prim2SF x) as [s|s| |s m e] eqn:E.
  - subst zero. destruct s; discriminate.
  - rewrite sub_spec, E. subst. destruct s; reflexivity.
  - rewrite sub_spec, E. subst. reflexivity.
  - rewrite (sub_self_finite x s m e E). subst. destruct s; reflexivity.
Qed.

End F64More.

(** * The direction of a change and the outlier chart *)

Section DirectionAndChart.
Context `{StatsLibrary}.

(** X12. When the two yearly means are equal the percent change is not
    positive, so the change is listed as a decrease; the exception is a mean
    of zero, whose infinite percent change is listed as an increase. *)
Theorem direction_when_means_equal (change : summary_row) (m : float) :
  Pct_Change change = pct_change m m ->
  Py.gt (Pct_Change change) 0 = (m =? 0)%float /\
  direction change = if (m =? 0)%float then "↗️ Increase" else "↘️ Decrease".
Proof.
  intros E. unfold direction. rewrite E. unfold pct_change, Py.ne, Py.gt.
  destruct (m =? 0)%float eqn:Em; simpl.
  - split; reflexivity.
  - rewrite (F64More.zero_change_not_positive m Em). split; reflexivity.
Qed.

Lemma fences_nan_no_outlier (q1 q3 v : float) :
  q1 = nan \/ q3 = nan ->
  Py.lt v (q1 - 1.5 * (q3 - q1)) || Py.gt v (q3 + 1.5 * (q3 - q1)) = false.
Proof.
  unfold Py.lt, Py.gt. intros [-> | ->].
  - now rewrite F64More.sub_nan_l, F64More.sub_nan_r, F64More.mul_nan_r,
      F64More.add_nan_r, F64More.ltb_nan_r, F64More.ltb_nan_l.
  - now rewrite F64More.sub_nan_l, F64More.mul_nan_r, F64More.sub_nan_r,
      F64More.add_nan_l, F64More.ltb_nan_r, F64More.ltb_nan_l.
Qed.

(** X13. The outlier count of a variable never exceeds the number of its
    non-null values, which never exceeds the number of rows; when either
    quartile is NaN both fences are NaN and no value is counted. *)
Theorem outlier_count_bounds (filtered_raw : DataFrame) (var : column) :
  let values := dropna (col filtered_raw var) in
  (outliers_count (outlier_summary_of var filtered_raw) <= List.length values)%nat /\
  (List.length values <= List.length filtered_raw)%nat /\
  (quantile values 0.25 = nan \/ quantile values 0.75 = nan ->
   outliers_count (outlier_summary_of var filtered_raw) = 0%nat).
Proof.
  intros values. unfold outlier_summary_of. fold values.
  split; [| split].
  - destruct (0 <? List.length values)%nat; simpl; [apply filter_length_le | lia].
  - unfold values, col. rewrite <- (length_map (fun r0 => cell r0 var) filtered_raw).
    apply filter_length_le.
  - intros Hq. destruct (0 <? List.length values)%nat; simpl; [| reflexivity].
    rewrite filter_none; [reflexivity |]. intros v _.
    now apply fences_nan_no_outlier.
Qed.

End DirectionAndChart.

(** Pressure is 10 in both years of the zero-baseline table: no change,
    listed as a decrease. *)
Lemma direction_sample :
  exists c,
    @compare_years Demo.library Demo.zero_baseline pressure = Ok c /\
    Mean_2024 (summary c) = 10 /\ Mean_2025 (summary c) = 10 /\
    Py.gt (Pct_Change (summary c)) 0 = false /\
    direction (summary c) = "↘️ Decrease".
Proof.
  eexists. split; [reflexivity |]. split; [reflexivity |]. split; [reflexivity |].
  apply (direction_when_means_equal _ 10). reflexivity.
Defined.

(** * The sorted outlier chart *)

Section SortByFacts.
Context {A : Type} (lt : A -> A -> bool) (key : A -> float).
Hypothesis lt_true : forall x y, lt x y = true -> Py.le (key x) (key y) = true.
Hypothesis lt_false :
  forall x y, Py.isnan (key x) = false -> Py.isnan (key y) = false ->
              lt x y = false -> Py.ge (key x) (key y) = true.

Lemma insert_reverse_by_perm x l : Permutation (insert_reverse_by lt x l) (x :: l).
Proof.
  induction l as [|y l IH]; simpl; [reflexivity |].
  destruct (lt x y); [| reflexivity]. rewrite IH. apply perm_swap.
Qed.

Lemma sorted_reverse_by_perm l : Permutation (sorted_reverse_by lt l) l.
Proof.
  induction l as [|x l IH]; simpl; [constructor |].
  rewrite insert_reverse_by_perm. now constructor.
Qed.

Lemma insert_reverse_by_descending x l :
  Py.isnan (key x) = false ->
  Forall (fun y => Py.isnan (key y) = false) l ->
  descending key l -> descending key (insert_reverse_by lt x l).
Proof.
  unfold descending. intros Nx Nl Hs.
  induction l as [|y l IH]; simpl.
  - repeat constructor.
  - inversion Nl as [|? ? Ny Nl']; subst. apply StronglySorted_inv in Hs as [Hs Hy].
    destruct (lt x y) eqn:E.
    + constructor; [now apply IH |].
      rewrite (insert_reverse_by_perm x l). constructor; [| exact Hy].
      apply lt_true, E.
    + assert (Hxy : Py.ge (key x) (key y) = true) by (apply lt_false; assumption).
      constructor; [constructor; assumption |].
      constructor; [exact Hxy |].
      eapply Forall_impl; [| exact Hy]. intros z Hz. unfold Py.ge in *.
      eapply F64.leb_trans; eassumption.
Qed.

Lemma sorted_reverse_by_descending l :
  Forall (fun y => Py.isnan (key y) = false) l ->
  descending key (sorted_reverse_by lt l).
Proof.
  induction 1 as [|x l Nx Nl IH]; simpl; [constructor |].
  apply insert_reverse_by_descending; auto.
  rewrite (sorted_reverse_by_perm l). exact Nl.
Qed.

End SortByFacts.

Section OutlierChart.
Context `{StatsLibrary}.

Lemma entry_lt_true a b :
  entry_lt a b = true -> Py.le (outlier_pct a) (outlier_pct b) = true.
Proof.
  unfold entry_lt, Py.ne, Py.le, Py.lt.
  destruct (outlier_pct a =? outlier_pct b)%float eqn:E; simpl.
  - intros _. apply (F64More.eqb_leb _ _ E).
  - apply F64.ltb_true_leb.
Qed.

Lemma entry_lt_false a b :
  Py.isnan (outlier_pct a) = false -> Py.isnan (outlier_pct b) = false ->
  entry_lt a b = false -> Py.ge (outlier_pct a) (outlier_pct b) = true.
Proof.
  unfold entry_lt, Py.ne, Py.ge, Py.lt. intros Na Nb.
  destruct (outlier_pct a =? outlier_pct b)%float eqn:E; simpl.
  - intros _. apply (F64More.eqb_leb _ _ E).
  - now apply F64.ltb_false_leb.
Qed.

(** X14. The bar chart shows exactly the nine per-variable entries, each
    label still next to its own percentage; the bars are coloured by rank
    from the warm end of the palette, the top-ranked bar dark red; and when
    no percentage is NaN the entries are ranked by descending percentage. *)
Theorem outlier_chart_order (filtered_raw : DataFrame) :
  let chart := outlier_bar_chart filtered_raw in
  Permutation (sorted_data filtered_raw) (outlier_summary filtered_raw) /\
  List.length (sorted_data filtered_raw) = 9%nat /\
  combine (rev (chart_x chart)) (rev (chart_y chart)) =
    map (fun e => (outlier_pct e, outlier_label e)) (sorted_data filtered_raw) /\
  rev (chart_colors chart) = firstn 9 warm_to_cool_colors /\
  nth 0 (rev (chart_colors chart)) "" = "#9B2226" /\
  (Forall (fun e => Py.isnan (outlier_pct e) = false) (outlier_summary filtered_raw) ->
   descending outlier_pct (sorted_data filtered_raw)).
Proof.
  intros chart.
  assert (Hp : Permutation (sorted_data filtered_raw) (outlier_summary filtered_raw))
    by apply sorted_reverse_by_perm.
  assert (Hl : List.length (sorted_data filtered_raw) = 9%nat).
  { rewrite (Permutation_length Hp). unfold outlier_summary. now rewrite length_map. }
  assert (Hc : rev (chart_colors chart) = firstn 9 warm_to_cool_colors).
  { unfold chart, outlier_bar_chart. cbv zeta. simpl chart_colors.
    rewrite rev_involutive, length_map, Hl. reflexivity. }
  split; [exact Hp |]. split; [exact Hl |]. split; [| split; [exact Hc | split]].
  - unfold chart, outlier_bar_chart. cbv zeta. simpl chart_x. simpl chart_y.
    rewrite !rev_involutive. generalize (sorted_data filtered_raw).
    induction l as [|e l IH]; simpl; [reflexivity | now rewrite IH].
  - rewrite Hc. reflexivity.
  - intros Hn. apply (sorted_reverse_by_descending entry_lt outlier_pct).
    + apply entry_lt_true.
    + apply entry_lt_false.
    + exact Hn.
Qed.

End OutlierChart.

(** On the sample table no percentage is NaN; three variables have one
    outlier among four values, and the ranked percentages are descending. *)
Lemma outlier_chart_sample :
  Forall (fun e => Py.isnan (outlier_pct e) = false)
         (@outlier_summary Demo.library Demo.sample_csv) /\
  descending outlier_pct (@sorted_data Demo.library Demo.sample_csv) /\
  map outlier_pct (@sorted_data Demo.library Demo.sample_csv) =
    [25; 25; 25; 0; 0; 0; 0; 0; 0].
Proof.
  assert (Hn : Forall (fun e => Py.isnan (outlier_pct e) = false)
                      (@outlier_summary Demo.library Demo.sample_csv))
    by (repeat constructor).
  split; [exact Hn |]. split; [| vm_compute; reflexivity].
  destruct (@outlier_chart_order Demo.library Demo.sample_csv)
    as (_ & _ & _ & _ & _ & Hd).
  exact (Hd Hn).
Defined.

(** * Navigation *)

Lemma select_section_steps (button : string -> bool) (options : list string) :
  forall selected,
    (fold_left (fun selected option => if button option then option else selected)
               options selected = selected /\
     Forall (fun option => button option = false) options) \/
    (In (fold_left (fun selected option => if button option then option else selected)
                   options selected) options /\
     button (fold_left (fun selected option => if button option then option else selected)
                       options selected) = true).
Proof.
  induction options as [|option options IH]; intros selected; simpl.
  - left. split; [reflexivity | constructor].
  - destruct (button option) eqn:E.
    + destruct (IH option) as [[E1 Hf] | [Hin Hb]].
      * right. rewrite E1. split; [now left | exact E].
      * right. split; [now right | exact Hb].
    + destruct (IH selected) as [[E1 Hf] | [Hin Hb]].
      * left. split; [exact E1 | now constructor].
      * right. split; [now right | exact Hb].
Qed.

(** X15. Navigation keeps the selected section among the six menu options:
    on the first run it is the first option unless a button is pressed, a
    rerun without a pressed button keeps the selection, a pressed button's
    option is selected, and the routing chain runs exactly one branch for
    every menu option (a different one for each). *)
Theorem navigation_selects_a_section (session_state : option string)
    (button : string -> bool) :
  (session_state = None \/ exists selected,
      session_state = Some selected /\ In selected menu_options) ->
  In (select_section session_state button) menu_options /\
  route (select_section session_state button) <> None /\
  (Forall (fun option => button option = false) menu_options ->
   select_section session_state button =
     match session_state with
     | None => "❄️ About DICHOSOcean"
     | Some selected => selected
     end) /\
  ((exists option, In option menu_options /\ button option = true) ->
   button (select_section session_state button) = true) /\
  map route menu_options =
    [Some About; Some DataOverview; Some StatisticalAnalysis;
     Some InterannualVariability; Some Project; Some References].
Proof.
  intros Hstate.
  set (start := match session_state with
                | None => nth 0 menu_options ""
                | Some selected => selected
                end).
  assert (Hstart : In start menu_options).
  { unfold start. destruct Hstate as [-> | [selected [-> Hin]]];
      [simpl; now left | exact Hin]. }
  assert (Hin : In (select_section session_state button) menu_options).
  { unfold select_section. fold start.
    destruct (select_section_steps button menu_options start) as [[E _] | [Hin _]].
    - rewrite E. exact Hstart.
    - exact Hin. }
  split; [exact Hin |]. split; [| split; [| split]].
  - simpl in Hin.
    repeat (destruct Hin as [<- | Hin]; [discriminate |]). contradiction.
  - intros Hf. unfold select_section. fold start.
    destruct (select_section_steps button menu_options start) as [[E _] | [Hi Hb]].
    + rewrite E. unfold start. now destruct session_state.
    + rewrite Forall_forall in Hf. rewrite (Hf _ Hi) in Hb. discriminate.
  - intros [option [Ho Hb]]. unfold select_section. fold start.
    destruct (select_section_steps button menu_options start) as [[_ Hf] | [_ Hb']].
    + rewrite Forall_forall in Hf. rewrite (Hf _ Ho) in Hb. discriminate.
    + exact Hb'.
  - reflexivity.
Qed.

(** First run, then a click on "Statistical Analysis". *)
Lemma navigation_sample :
  select_section None (fun _ => false) = "❄️ About DICHOSOcean" /\
  select_section (Some "❄️ About DICHOSOcean")
                 (String.eqb "📊 Statistical Analysis") = "📊 Statistical Analysis" /\
  In (select_section (Some "❄️ About DICHOSOcean")
                     (String.eqb "📊 Statistical Analysis")) menu_options.
Proof.
  split; [reflexivity |]. split; [reflexivity |].
  apply (navigation_selects_a_section (Some "❄️ About DICHOSOcean")
           (String.eqb "📊 Statistical Analysis")).
  right. eexists. split; [reflexivity | now left].
Defined.
